(** * The VMware module installation wizard (scripts/vmware_wizard.py)

    A shallow embedding of the wizard's kernel inventory, hardware
    detection, memory pre-check, configuration export and main flow, and
    the properties of them that the specification states.

    Conventions of the model.
    - Text is [string], the bytes of its UTF-8 encoding; a name that is
      not well-formed UTF-8 is read as [os.fsdecode] reads it.  [int] is
      Python's [int(str)], with the digits and white space of Unicode 14.0
      (CPython 3.11).
    - A Python exception is a value of [exc]; code that can raise returns
      a [result]; [try]/[except] is a match on the class of the exception.
    - Everything the script reads from outside (file system, running
      release, subprocess results, operator answers, clock) is a field of
      [World]; everything it does to the outside (terminal calls, pauses,
      file writes) is appended to a trace of [event]s.
    - Subprocesses, prompts, reading the capability files and writing the
      configuration can raise, and [World] says what they raise;
      a terminal call that only displays is taken to return.  The event
      [json_dump] stands for a write that has been completed.
    - The glyphs that decorate terminal messages are left out of the
      message texts, and arrows are written [->]. *)

From Stdlib Require Import List String Ascii ZArith QArith Bool Lia.
From Stdlib Require Import DecimalString Sorted Permutation.
From Stdlib Require DecimalPos.
Import ListNotations.

Local Open Scope string_scope.
Local Open Scope list_scope.
Local Open Scope Z_scope.

(** ** Python exceptions and results *)

Inductive exc_class :=
| BaseException | Exception | KeyboardInterrupt
| ValueError | JSONDecodeError
| IndexError | AttributeError
| OSError | FileNotFoundError | NotADirectoryError | PermissionError
| TimeoutExpired.

Definition exc_class_eqb (a b : exc_class) : bool :=
  match a, b with
  | BaseException, BaseException | Exception, Exception
  | KeyboardInterrupt, KeyboardInterrupt
  | ValueError, ValueError | JSONDecodeError, JSONDecodeError
  | IndexError, IndexError | AttributeError, AttributeError
  | OSError, OSError | FileNotFoundError, FileNotFoundError
  | NotADirectoryError, NotADirectoryError
  | PermissionError, PermissionError
  | TimeoutExpired, TimeoutExpired => true
  | _, _ => false
  end.

(** The classes an exception class inherits from, itself first (the
    intermediate classes LookupError and SubprocessError are left out). *)
Definition mro (c : exc_class) : list exc_class :=
  match c with
  | BaseException => [BaseException]
  | Exception => [Exception; BaseException]
  | KeyboardInterrupt => [KeyboardInterrupt; BaseException]
  | ValueError => [ValueError; Exception; BaseException]
  | JSONDecodeError => [JSONDecodeError; ValueError; Exception; BaseException]
  | IndexError => [IndexError; Exception; BaseException]
  | AttributeError => [AttributeError; Exception; BaseException]
  | OSError => [OSError; Exception; BaseException]
  | FileNotFoundError => [FileNotFoundError; OSError; Exception; BaseException]
  | NotADirectoryError => [NotADirectoryError; OSError; Exception; BaseException]
  | PermissionError => [PermissionError; OSError; Exception; BaseException]
  | TimeoutExpired => [TimeoutExpired; Exception; BaseException]
  end.

Definition issubclass (c parent : exc_class) : bool :=
  existsb (exc_class_eqb parent) (mro c).

(** An exception instance: its class and [str(e)]. *)
Record exc := mkExc { exc_type : exc_class; exc_str : string }.

Definition isinstance (e : exc) (parent : exc_class) : bool :=
  issubclass (exc_type e) parent.

Inductive result (A : Type) :=
| Ok (a : A)
| Raise (e : exc).
Arguments Ok {A} a.
Arguments Raise {A} e.

Definition bind {A B} (m : result A) (k : A -> result B) : result B :=
  match m with
  | Ok a => k a
  | Raise e => Raise e
  end.

Declare Scope py_scope.
Delimit Scope py_scope with py.
Notation "x <- m ;; k" := (bind m (fun x => k))
  (at level 100, m at next level, right associativity) : py_scope.
Local Open Scope py_scope.

(** ** Strings, lists and integers as Python has them *)

(** [s.split(sep)] for a one-character separator. *)
Fixpoint split (sep : ascii) (s : string) : list string :=
  match s with
  | EmptyString => [EmptyString]
  | String c rest =>
      if Ascii.eqb c sep then EmptyString :: split sep rest
      else match split sep rest with
           | w :: ws => String c w :: ws
           | [] => [String c EmptyString]
           end
  end.

(** [l[i]] for [i >= 0]. *)
Definition getitem {A} (l : list A) (i : nat) : result A :=
  match nth_error l i with
  | Some a => Ok a
  | None => Raise (mkExc IndexError "list index out of range")
  end.

Definition len {A} (l : list A) : Z := Z.of_nat (List.length l).

(** *** Text as Python sees it

    A [string] holds the bytes of a text as the system gives them.  Python
    decodes them as UTF-8 with the [surrogateescape] error handler
    ([os.fsdecode], with the file system encoding of a UTF-8 or C locale)
    and works on the code points: [int] reads them, and [sorted] orders
    names by them.  Decoding is one to one, so two texts are equal when
    their bytes are. *)

Definition continuation (b : N) : bool := ((128 <=? b) && (b <=? 191))%N.

(** The well-formed sequences of two, three and four bytes. *)
Definition two_byte (b0 b1 : N) : bool :=
  ((194 <=? b0) && (b0 <=? 223))%N && continuation b1.

Definition three_byte (b0 b1 b2 : N) : bool :=
  (((b0 =? 224) && (160 <=? b1) && (b1 <=? 191))%N
   || ((225 <=? b0) && (b0 <=? 236))%N && continuation b1
   || ((b0 =? 237) && (128 <=? b1) && (b1 <=? 159))%N
   || ((238 <=? b0) && (b0 <=? 239))%N && continuation b1)
  && continuation b2.

Definition four_byte (b0 b1 b2 b3 : N) : bool :=
  (((b0 =? 240) && (144 <=? b1) && (b1 <=? 191))%N
   || ((241 <=? b0) && (b0 <=? 243))%N && continuation b1
   || ((b0 =? 244) && (128 <=? b1) && (b1 <=? 143))%N)
  && continuation b2 && continuation b3.

Definition code_point2 (b0 b1 : N) : N := ((b0 - 192) * 64 + (b1 - 128))%N.

Definition code_point3 (b0 b1 b2 : N) : N :=
  ((b0 - 224) * 4096 + (b1 - 128) * 64 + (b2 - 128))%N.

Definition code_point4 (b0 b1 b2 b3 : N) : N :=
  ((b0 - 240) * 262144 + (b1 - 128) * 4096 + (b2 - 128) * 64 + (b3 - 128))%N.

(** A byte that is part of no well-formed sequence becomes the lone
    surrogate U+DC00 + byte. *)
Definition surrogate_escape (b : N) : N := (56320 + b)%N.

(** The code points of a text. *)
Fixpoint utf8_decode (s : string) : list N :=
  match s with
  | EmptyString => []
  | String a0 rest =>
      let b0 := N_of_ascii a0 in
      if (b0 <? 128)%N then b0 :: utf8_decode rest
      else
        match rest with
        | EmptyString => surrogate_escape b0 :: utf8_decode rest
        | String a1 rest1 =>
            let b1 := N_of_ascii a1 in
            if two_byte b0 b1 then code_point2 b0 b1 :: utf8_decode rest1
            else
              match rest1 with
              | EmptyString => surrogate_escape b0 :: utf8_decode rest
              | String a2 rest2 =>
                  let b2 := N_of_ascii a2 in
                  if three_byte b0 b1 b2
                  then code_point3 b0 b1 b2 :: utf8_decode rest2
                  else
                    match rest2 with
                    | EmptyString => surrogate_escape b0 :: utf8_decode rest
                    | String a3 rest3 =>
                        let b3 := N_of_ascii a3 in
                        if four_byte b0 b1 b2 b3
                        then code_point4 b0 b1 b2 b3 :: utf8_decode rest3
                        else surrogate_escape b0 :: utf8_decode rest
                    end
              end
        end
  end.

(** Whether every character of a text is an ASCII one. *)
Fixpoint is_ascii (s : string) : bool :=
  match s with
  | EmptyString => true
  | String c rest => (N_of_ascii c <? 128)%N && is_ascii rest
  end.

(** The decimal digits of Unicode 14.0 (the tables of CPython 3.11) come
    in runs of ten, zero to nine; these are the zeros. *)
Definition decimal_zeros : list N :=
  [ 48; 1632; 1776; 1984; 2406; 2534; 2662; 2790; 2918; 3046; 3174; 3302;
    3430; 3558; 3664; 3792; 3872; 4160; 4240; 6112; 6160; 6470; 6608; 6784;
    6800; 6992; 7088; 7232; 7248; 42528; 43216; 43264; 43472; 43504; 43600;
    44016; 65296; 66720; 68912; 69734; 69872; 69942; 70096; 70384; 70736;
    70864; 71248; 71360; 71472; 71904; 72016; 72784; 73040; 73120; 92768;
    92864; 93008; 120782; 120792; 120802; 120812; 120822; 123200; 123632;
    125264; 130032 ]%N.

(** [unicodedata.decimal] of a code point. *)
Definition unicode_decimal (ch : N) : option N :=
  match find (fun zero => ((zero <=? ch) && (ch <? zero + 10))%N) decimal_zeros with
  | Some zero => Some (ch - zero)%N
  | None => None
  end.

(** The code points that [str.isspace] accepts. *)
Definition unicode_spaces : list N :=
  [ 9; 10; 11; 12; 13; 28; 29; 30; 31; 32; 133; 160; 5760;
    8192; 8193; 8194; 8195; 8196; 8197; 8198; 8199; 8200; 8201; 8202;
    8232; 8233; 8239; 8287; 12288 ]%N.

Definition unicode_isspace (ch : N) : bool := existsb (N.eqb ch) unicode_spaces.

(** What [int] makes of a text that is not all ASCII before it reads it:
    ASCII characters below 127 stay, white space becomes a blank, a decimal
    digit its ASCII digit, and at the first other character the text ends
    in a question mark. *)
Fixpoint transform_decimal_and_space (chars : list N) : string :=
  match chars with
  | [] => EmptyString
  | ch :: rest =>
      if (ch <? 127)%N
      then String (ascii_of_N ch) (transform_decimal_and_space rest)
      else if unicode_isspace ch
      then String " " (transform_decimal_and_space rest)
      else match unicode_decimal ch with
           | Some d => String (ascii_of_N (48 + d)) (transform_decimal_and_space rest)
           | None => "?"
           end
  end.

(** White space as an ASCII literal has it around the number. *)
Definition is_space (c : ascii) : bool :=
  let n := nat_of_ascii c in
  ((9 <=? n)%nat && (n <=? 13)%nat) || (n =? 32)%nat.

Definition digit_value (c : ascii) : option Z :=
  let n := nat_of_ascii c in
  if ((48 <=? n)%nat && (n <=? 57)%nat) then Some (Z.of_nat (n - 48)) else None.

Fixpoint skip_spaces (s : string) : string :=
  match s with
  | String c rest => if is_space c then skip_spaces rest else s
  | EmptyString => s
  end.

(** The digits of a literal, single underscores allowed between them:
    the value read, how many digits, and what follows them.  [None] on a
    doubled or trailing underscore. *)
Fixpoint scan_digits (s : string) (prev_underscore : bool) (acc : Z) (ndigits : nat)
  : option (Z * nat * string) :=
  match s with
  | String c rest =>
      match digit_value c with
      | Some d => scan_digits rest false (10 * acc + d) (S ndigits)
      | None =>
          if Ascii.eqb c "_" then
            if prev_underscore then None else scan_digits rest true acc ndigits
          else
            if prev_underscore then None else Some (acc, ndigits, s)
      end
  | EmptyString => if prev_underscore then None else Some (acc, ndigits, s)
  end.

(** The number an ASCII literal of base 10 stands for: optional white
    space, an optional sign, decimal digits with single underscores
    between them, optional white space; [None] for any other text. *)
Definition long_from_string (s : string) : option Z :=
  let s1 := skip_spaces s in
  let '(sign, s2) :=
    match s1 with
    | String "+" rest => (1, rest)
    | String "-" rest => (-1, rest)
    | _ => (1, s1)
    end in
  match s2 with
  | String "_" _ => None
  | _ =>
      match scan_digits s2 false 0 0 with
      | Some (v, n, rest) =>
          if (n =? 0)%nat then None
          else match skip_spaces rest with
               | EmptyString => Some (sign * v)
               | _ => None
               end
      | None => None
      end
  end.

(** The error of [int]; its text shows the literal between quotes, as
    [repr] does for a text without quotes or characters it escapes. *)
Definition invalid_literal (s : string) : exc :=
  mkExc ValueError ("invalid literal for int() with base 10: '" ++ s ++ "'")%string.

(** [int(s)]: an all-ASCII text is read as it is, any other text after
    its digits and white space have been made ASCII.  CPython refuses a
    literal of more than 4300 digits; a file name, of 255 bytes at most,
    is out of reach of that limit, which is left out. *)
Definition int (s : string) : result Z :=
  let literal :=
    if is_ascii s then s else transform_decimal_and_space (utf8_decode s) in
  match long_from_string literal with
  | Some n => Ok n
  | None => Raise (invalid_literal s)
  end.

(** [str(n)] of an integer, as an f-string renders it. *)
Definition str_of_int (n : Z) : string := NilZero.string_of_int (Z.to_int n).

(** [x in l] on integers. *)
Definition int_in (x : Z) (l : list Z) : bool := existsb (Z.eqb x) l.

(** [a < b] on texts: the first code point that differs decides, and a
    proper prefix comes first. *)
Fixpoint compare_code_points (a b : list N) : comparison :=
  match a, b with
  | [], [] => Eq
  | [], _ :: _ => Lt
  | _ :: _, [] => Gt
  | x :: a', y :: b' =>
      match N.compare x y with
      | Eq => compare_code_points a' b'
      | c => c
      end
  end.

Definition str_lt (a b : string) : bool :=
  match compare_code_points (utf8_decode a) (utf8_decode b) with
  | Lt => true
  | _ => false
  end.

(** [sorted] on names: a stable insertion into increasing order. *)
Fixpoint insert_sorted (x : string) (l : list string) : list string :=
  match l with
  | [] => [x]
  | y :: rest => if str_lt x y then x :: l else y :: insert_sorted x rest
  end.

Definition sorted (l : list string) : list string :=
  fold_left (fun acc x => insert_sorted x acc) l [].

(** A [for] loop whose body can raise: the state after the last pass. *)
Fixpoint for_each {A S} (xs : list A) (body : S -> A -> result S) (s : S) : result S :=
  match xs with
  | [] => Ok s
  | x :: rest => s' <- body s x ;; for_each rest body s'
  end.

(** ** The file system *)

Inductive ftype := RegularFile | Directory.

Record Filesystem := {
  (** what a path resolves to, links followed; [None]: nothing there *)
  stat : string -> option ftype;
  (** the names in a directory, in the order the system yields them *)
  listdir : string -> list string
}.

Definition path_exists (fs : Filesystem) (p : string) : bool :=
  match stat fs p with Some _ => true | None => false end.

Definition path_is_dir (fs : Filesystem) (p : string) : bool :=
  match stat fs p with Some Directory => true | _ => false end.

(** [p / name] *)
Definition joinpath (p name : string) : string := (p ++ "/" ++ name)%string.

(** The names of [p.iterdir()]; each stands for the path [p / name], and
    paths under one parent compare as their names do. *)
Definition iterdir (fs : Filesystem) (p : string) : result (list string) :=
  match stat fs p with
  | Some Directory => Ok (listdir fs p)
  | Some RegularFile =>
      Raise (mkExc NotADirectoryError ("[Errno 20] Not a directory: '" ++ p ++ "'"))
  | None =>
      Raise (mkExc FileNotFoundError ("[Errno 2] No such file or directory: '" ++ p ++ "'"))
  end.

(** ** Kernel inventory *)

Record KernelInfo := {
  version : string;
  full_version : string;
  major : Z;
  minor : Z;
  patch : Z;
  headers_installed : bool;
  headers_path : string;
  is_current : bool;
  supported : bool
}.

Definition modules_dir : string := "/lib/modules".

(** The [try] block of the loop: major, minor, patch and version. *)
Definition parse_version (full_version : string) : result (Z * Z * Z * string) :=
  dash_prefix <- getitem (split "-" full_version) 0 ;;
  let version_parts := split "." dash_prefix in
  major <- (p0 <- getitem version_parts 0 ;; int p0) ;;
  minor <- (if 1 <? len version_parts
            then p1 <- getitem version_parts 1 ;; int p1 else Ok 0) ;;
  patch <- (if 2 <? len version_parts
            then p2 <- getitem version_parts 2 ;; int p2 else Ok 0) ;;
  let version := (str_of_int major ++ "." ++ str_of_int minor)%string in
  Ok (major, minor, patch, version).

(** One pass of the loop over the entries of the modules directory. *)
Definition inventory_step (fs : Filesystem) (current_kernel : string)
    (kernels : list KernelInfo) (name : string) : result (list KernelInfo) :=
  let kernel_dir := joinpath modules_dir name in
  if negb (path_is_dir fs kernel_dir) then Ok kernels
  else
    let full_version := name in
    match parse_version full_version with
    | Raise e =>
        if isinstance e ValueError || isinstance e IndexError
        then Ok kernels
        else Raise e
    | Ok (major, minor, patch, version) =>
        let supported := (major =? 6) && int_in minor [16; 17; 18] in
        let headers_path := joinpath kernel_dir "build" in
        let headers_installed :=
          path_exists fs headers_path && path_is_dir fs headers_path in
        let is_current := String.eqb full_version current_kernel in
        Ok (kernels ++ [{| version := version;
                           full_version := full_version;
                           major := major;
                           minor := minor;
                           patch := patch;
                           headers_installed := headers_installed;
                           headers_path := headers_path;
                           is_current := is_current;
                           supported := supported |}])
    end.

Definition detect_installed_kernels (fs : Filesystem) (release : string)
  : result (list KernelInfo) :=
  let kernels := [] in
  let current_kernel := release in
  if negb (path_exists fs modules_dir) then Ok kernels
  else
    entries <- iterdir fs modules_dir ;;
    for_each (sorted entries) (inventory_step fs current_kernel) kernels.


(** ** Python values, as [json.load] returns them and [json.dump] takes them

    A dict keeps its items in insertion order, which is the order
    [json.dump] writes them in. *)

#[warnings="-register-all"]
Inductive pyval :=
| PNone
| PBool (b : bool)
| PInt (n : Z)
| PFloat (x : Q)
| PStr (s : string)
| PList (l : list pyval)
| PDict (items : list (string * pyval)).

Fixpoint lookup (key : string) (items : list (string * pyval)) : option pyval :=
  match items with
  | [] => None
  | (k, v) :: rest => if String.eqb k key then Some v else lookup key rest
  end.

Definition keys (items : list (string * pyval)) : list string := map fst items.

Definition type_name (v : pyval) : string :=
  match v with
  | PNone => "NoneType" | PBool _ => "bool" | PInt _ => "int"
  | PFloat _ => "float" | PStr _ => "str" | PList _ => "list"
  | PDict _ => "dict"
  end.

Definition no_attribute (v : pyval) (attr : string) : exc :=
  mkExc AttributeError
    ("'" ++ type_name v ++ "' object has no attribute '" ++ attr ++ "'")%string.

(** [v.get(key, default)] *)
Definition py_get (v : pyval) (key : string) (default : pyval) : result pyval :=
  match v with
  | PDict items =>
      Ok match lookup key items with Some x => x | None => default end
  | _ => Raise (no_attribute v "get")
  end.

Definition upper_char (c : ascii) : ascii :=
  let n := nat_of_ascii c in
  if ((97 <=? n)%nat && (n <=? 122)%nat) then ascii_of_nat (n - 32) else c.

Fixpoint upper (s : string) : string :=
  match s with
  | EmptyString => EmptyString
  | String c rest => String (upper_char c) (upper rest)
  end.

(** [v.upper()] *)
Definition py_upper (v : pyval) : result string :=
  match v with
  | PStr s => Ok (upper s)
  | _ => Raise (no_attribute v "upper")
  end.

(** [v == s] for a string [s] *)
Definition py_eq_str (v : pyval) (s : string) : bool :=
  match v with
  | PStr t => String.eqb t s
  | _ => false
  end.

(** The truth value of [v] in an [if]. *)
Definition truthy (v : pyval) : bool :=
  match v with
  | PNone => false
  | PBool b => b
  | PInt n => negb (n =? 0)
  | PFloat x => negb (Qeq_bool x 0)
  | PStr s => negb (String.eqb s "")
  | PList l => match l with [] => false | _ => true end
  | PDict items => match items with [] => false | _ => true end
  end.

(** ** The wizard object, its surroundings and what it does to them *)

Record Wizard := {
  detected_kernels : list KernelInfo;
  selected_kernels : list KernelInfo;
  optimization_mode : string;
  hw_capabilities : pyval
}.

(** [VMwareWizard.__init__] *)
Definition init : Wizard := {|
  detected_kernels := [];
  selected_kernels := [];
  optimization_mode := "optimized";
  hw_capabilities := PDict []
|}.

(** What a menu entry stands for: a kernel, or the string ["all"]. *)
Inductive choice_value :=
| ChoiceKernel (k : KernelInfo)
| ChoiceAll.

Record World := {
  fs : Filesystem;
  (** [os.uname().release] *)
  release : string;
  (** [os.geteuid()] and [os.getpid()] *)
  euid : Z;
  pid : Z;
  (** [Path(__file__).parent] and [sys.executable] *)
  script_dir : string;
  executable : string;
  (** [subprocess.run] of the memory checker: its return code, or what it raises *)
  memory_fix : result Z;
  (** [subprocess.run] of the hardware probe with its 30 second budget:
      its return code, or what it raises ([TimeoutExpired] past the budget) *)
  probe : result Z;
  (** the capability files once the probe is over: [None] when the path
      does not exist, else what [open] and [json.load] give *)
  capabilities_file : string -> option (result pyval);
  (** the operator: answers to the two confirmations and positions picked
      in the two menus (a position past the end stands for the last
      entry), or what the prompt raises *)
  confirm_start : result bool;
  kernel_pick : result nat;
  mode_pick : result nat;
  confirm_final : result bool;
  (** opening the configuration file and writing the configuration out:
      returns, or what [open] or [json.dump] raises *)
  config_write : result unit;
  (** [time.time()] *)
  clock : Q
}.

Inductive event :=
| show_banner (title subtitle : string)
| show_welcome_steps (steps : list string)
| show_step (n total : Z) (title : string)
| show_error (msg : string)
| show_warning (msg : string)
| show_info (msg : string)
| show_success (msg : string)
| show_hardware_summary (caps : pyval)
| show_comparison_table (title : string)
| show_panel (body title : string)
| console_print
| console_print_recommendation (recommended : string) (opt_score : pyval)
| confirm (question : string) (default : bool)
| select_kernel (question : string) (labels : list string) (default : option KernelInfo)
| select_mode (question : string) (values : list string) (default : string)
| subprocess_run (argv : list string)
| sleep (seconds : Z)
| json_dump (path : string) (config : pyval)
| print_exc (e : exc)
| print_line (text : string).

(** A method of the wizard: it reads and updates [self], extends the
    trace, and returns or raises. *)
Definition M (A : Type) : Type :=
  Wizard -> list event -> result A * Wizard * list event.

Definition ret {A} (a : A) : M A := fun self tr => (Ok a, self, tr).

Definition raise {A} (e : exc) : M A := fun self tr => (Raise e, self, tr).

Definition mbind {A B} (m : M A) (k : A -> M B) : M B :=
  fun self tr =>
    match m self tr with
    | (Ok a, self', tr') => k a self' tr'
    | (Raise e, self', tr') => (Raise e, self', tr')
    end.

Declare Scope wizard_scope.
Delimit Scope wizard_scope with wizard.
Notation "x <- m ;; k" := (mbind m (fun x => k))
  (at level 100, m at next level, right associativity) : wizard_scope.
Notation "m ;; k" := (mbind m (fun _ => k))
  (at level 100, right associativity) : wizard_scope.

Definition lift {A} (r : result A) : M A := fun self tr => (r, self, tr).

Definition emit (e : event) : M unit := fun self tr => (Ok tt, self, tr ++ [e]).

Definition get_self : M Wizard := fun self tr => (Ok self, self, tr).

Definition set_self (f : Wizard -> Wizard) : M unit :=
  fun self tr => (Ok tt, f self, tr).

(** [try: body except c1: h1 except c2: h2 ...]: the first clause whose
    class the exception is an instance of handles it. *)
Fixpoint find_clause {A} (e : exc) (clauses : list (exc_class * (exc -> M A)))
  : option (exc -> M A) :=
  match clauses with
  | [] => None
  | (cls, handler) :: rest =>
      if isinstance e cls then Some handler else find_clause e rest
  end.

Definition try_except {A} (body : M A) (clauses : list (exc_class * (exc -> M A))) : M A :=
  fun self tr =>
    match body self tr with
    | (Raise e, self', tr') =>
        match find_clause e clauses with
        | Some handler => handler e self' tr'
        | None => (Raise e, self', tr')
        end
    | r => r
    end.

Definition set_detected_kernels (ks : list KernelInfo) (self : Wizard) : Wizard :=
  {| detected_kernels := ks;
     selected_kernels := selected_kernels self;
     optimization_mode := optimization_mode self;
     hw_capabilities := hw_capabilities self |}.

Definition set_selected_kernels (ks : list KernelInfo) (self : Wizard) : Wizard :=
  {| detected_kernels := detected_kernels self;
     selected_kernels := ks;
     optimization_mode := optimization_mode self;
     hw_capabilities := hw_capabilities self |}.

Definition set_optimization_mode (mode : string) (self : Wizard) : Wizard :=
  {| detected_kernels := detected_kernels self;
     selected_kernels := selected_kernels self;
     optimization_mode := mode;
     hw_capabilities := hw_capabilities self |}.

Definition set_hw_capabilities (caps : pyval) (self : Wizard) : Wizard :=
  {| detected_kernels := detected_kernels self;
     selected_kernels := selected_kernels self;
     optimization_mode := optimization_mode self;
     hw_capabilities := caps |}.

Local Open Scope wizard_scope.

(** ** Hardware detection *)

Definition capabilities_paths (w : World) : list string :=
  [ "/tmp/vmware_hw_capabilities.json";
    ("/tmp/vmware_hw_capabilities_" ++ str_of_int (pid w) ++ ".json")%string ].

(** The loop over the two capability files: the first that exists is
    loaded into [hw_capabilities], and the loop stops there. *)
Fixpoint load_first_capabilities (w : World) (json_files : list string) : M unit :=
  match json_files with
  | [] => ret tt
  | json_file :: rest =>
      match capabilities_file w json_file with
      | Some loaded =>
          caps <- lift loaded ;;
          set_self (set_hw_capabilities caps)
      | None => load_first_capabilities w rest
      end
  end.

Definition run_hardware_detection (w : World) : M unit :=
  let detect_script := joinpath (script_dir w) "detect_hardware.py" in
  if negb (path_exists (fs w) detect_script) then
    emit (show_warning
            ("Hardware detection script not found at " ++ detect_script)%string) ;;
    set_self (set_hw_capabilities (PDict []))
  else
    try_except
      (emit (subprocess_run [executable w; detect_script]) ;;
       result <- lift (probe w) ;;
       load_first_capabilities w (capabilities_paths w))
      [ (Exception, fun e =>
           emit (show_warning ("Hardware detection failed: " ++ exc_str e)%string) ;;
           set_self (set_hw_capabilities (PDict []))) ].

(** ** Configuration export *)

Definition config_file : string := "/tmp/vmware_wizard_config.json".

Definition kernel_config (kernel : KernelInfo) : pyval :=
  PDict [ ("full_version", PStr (full_version kernel));
          ("version", PStr (version kernel));
          ("major", PInt (major kernel));
          ("minor", PInt (minor kernel));
          ("patch", PInt (patch kernel));
          ("is_current", PBool (is_current kernel)) ].

(** The [export_configuration] method. *)
Definition export_configuration (w : World) : M unit :=
  self <- get_self ;;
  let kernel_configs := map kernel_config (selected_kernels self) in
  let config :=
    PDict [ ("selected_kernels", PList kernel_configs);
            ("optimization_mode", PStr (optimization_mode self));
            ("hw_capabilities", hw_capabilities self);
            ("timestamp", PFloat (clock w));
            ("offer_system_tuning", PBool true) ] in
  lift (config_write w) ;;
  emit (json_dump config_file config) ;;
  emit (show_success "Configuration saved successfully").

(** The configuration that [run] builds in line before it writes it. *)
Definition run_config (w : World) (self : Wizard) : pyval :=
  PDict [ ("selected_kernels", PList (map kernel_config (selected_kernels self)));
          ("optimization_mode", PStr (optimization_mode self));
          ("hw_capabilities", hw_capabilities self);
          ("timestamp", PFloat (clock w));
          ("auto_configure_iommu",
            PBool (String.eqb (optimization_mode self) "optimized")) ].

(** ** Memory pre-check *)

Definition check_and_fix_memory_saturation (w : World) : M unit :=
  try_except
    (let memory_checker := joinpath (script_dir w) "check_and_fix_memory.py" in
     if path_exists (fs w) memory_checker then
       emit (subprocess_run ["sudo"; "python3"; memory_checker]) ;;
       returncode <- lift (memory_fix w) ;;
       if returncode =? 0 then emit (sleep 2) else ret tt
     else ret tt)
    [ (Exception, fun e => ret tt) ].

(** ** The main flow *)

Definition is_empty {A} (l : list A) : bool :=
  match l with [] => true | _ => false end.

(** [[k for k in kernels if k.supported and k.headers_installed]] *)
Definition supported_with_headers (kernels : list KernelInfo) : list KernelInfo :=
  fold_left
    (fun acc k => if supported k && headers_installed k then acc ++ [k] else acc)
    kernels [].

(** The loop that builds the kernel menu. *)
Fixpoint kernel_menu (supported_kernels : list KernelInfo)
    (kernel_choices : list (string * choice_value))
    (current_kernel_value : option KernelInfo)
  : list (string * choice_value) * option KernelInfo :=
  match supported_kernels with
  | [] => (kernel_choices, current_kernel_value)
  | kernel :: rest =>
      let marker := if is_current kernel then " " else "   " in
      let label := (marker ++ full_version kernel)%string in
      let label := if is_current kernel then (label ++ " (current)")%string else label in
      let current_kernel_value :=
        if is_current kernel then Some kernel else current_kernel_value in
      kernel_menu rest (kernel_choices ++ [(label, ChoiceKernel kernel)])
        current_kernel_value
  end.

Fixpoint emit_all (events : list event) : M unit :=
  match events with
  | [] => ret tt
  | e :: rest => emit e ;; emit_all rest
  end.

Definition nl : string := String (ascii_of_nat 10) EmptyString.

Definition welcome_steps : list string :=
  [ "Kernel Detection & Selection";
    "Hardware Detection & Analysis";
    "Optimization Mode Selection (Optimized vs Vanilla + IOMMU)";
    "Module Compilation & Installation" ].

Definition no_kernels_message : string := "No kernels detected!".

Definition no_supported_message : string :=
  "No supported kernels (6.16.x, 6.17.x or 6.18.x) with headers found!".

Definition install_headers_message : string :=
  "Please install kernel headers: sudo apt install linux-headers-$(uname -r)".

Definition plan_panel (self : Wizard) : string :=
  let optimized := String.eqb (optimization_mode self) "optimized" in
  ("[primary]Installation Plan:[/]" ++ nl ++ nl
   ++ "   Kernels: " ++ String.concat ", " (map full_version (selected_kernels self)) ++ nl
   ++ "   Mode: " ++ upper (optimization_mode self) ++ nl
   ++ "   Patches: " ++ (if optimized then "All optimizations + VT-x/EPT + IOMMU"
                         else "Kernel compatibility only") ++ nl
   ++ "   IOMMU: " ++ (if optimized then " Automatic (enabled in GRUB)"
                       else " Not configured") ++ nl
   ++ "   initramfs: Will be updated after compilation" ++ nl)%string.

(** The body of the [try] in [run]. *)
Definition run_body (w : World) : M Z :=
  check_and_fix_memory_saturation w ;;
  emit (show_banner "VMware Module Installation Wizard"
          "Automated Kernel Module Compilation for Linux 6.16/6.17/6.18") ;;
  emit (show_welcome_steps welcome_steps) ;;
  emit (confirm "Ready to start the installation?" true) ;;
  ready <- lift (confirm_start w) ;;
  if negb ready then
    emit (show_warning "Installation cancelled by user") ;;
    ret 1
  else
  (* step 1 *)
  emit (show_step 1 4 "Kernel Detection & Selection") ;;
  kernels <- lift (detect_installed_kernels (fs w) (release w)) ;;
  set_self (set_detected_kernels kernels) ;;
  self <- get_self ;;
  if is_empty (detected_kernels self) then
    emit (show_error no_kernels_message) ;;
    ret 1
  else
  let supported_kernels := supported_with_headers (detected_kernels self) in
  if is_empty supported_kernels then
    emit (show_error no_supported_message) ;;
    emit (show_info install_headers_message) ;;
    ret 1
  else
  emit (show_info ("Found " ++ str_of_int (len supported_kernels)
                   ++ " supported kernel(s) with headers")%string) ;;
  let '(kernel_choices, current_kernel_value) :=
    kernel_menu supported_kernels [] None in
  let kernel_choices :=
    kernel_choices ++ [("All supported kernels with headers", ChoiceAll)] in
  emit (select_kernel "Which kernel do you want to compile modules for?"
          (map fst kernel_choices) current_kernel_value) ;;
  position <- lift (kernel_pick w) ;;
  let selected_kernel := nth position (map snd kernel_choices) ChoiceAll in
  set_self (set_selected_kernels
              match selected_kernel with
              | ChoiceAll => supported_kernels
              | ChoiceKernel k => [k]
              end) ;;
  self <- get_self ;;
  emit (show_success ("Selected " ++ str_of_int (len (selected_kernels self))
                      ++ " kernel(s) for compilation")%string) ;;
  emit_all (map (fun k => show_info ("   " ++ full_version k
                                     ++ " (kernel " ++ version k ++ ")")%string)
              (selected_kernels self)) ;;
  (* step 2 *)
  emit (show_step 2 4 "Hardware Detection & Analysis") ;;
  emit (show_info "Analyzing your hardware...") ;;
  run_hardware_detection w ;;
  self <- get_self ;;
  (if truthy (hw_capabilities self)
   then emit (show_hardware_summary (hw_capabilities self)) else ret tt) ;;
  (* step 3 *)
  emit (show_step 3 4 "Optimization Mode Selection") ;;
  recommended <- lift (optimization <- py_get (hw_capabilities self) "optimization" (PDict []) ;;
                       py_get optimization "recommended_mode" (PStr "optimized"))%py ;;
  opt_score <- lift (optimization <- py_get (hw_capabilities self) "optimization" (PDict []) ;;
                     py_get optimization "optimization_score" (PInt 50))%py ;;
  emit (show_comparison_table "Compilation Mode Comparison") ;;
  emit console_print ;;
  recommended_upper <- lift (py_upper recommended) ;;
  emit (console_print_recommendation recommended_upper opt_score) ;;
  emit console_print ;;
  let mode_values := ["optimized"; "vanilla"]%string in
  let default_mode := if py_eq_str recommended "optimized" then "optimized" else "vanilla" in
  emit (select_mode "Which compilation mode do you want to use?" mode_values default_mode) ;;
  position <- lift (mode_pick w) ;;
  set_self (set_optimization_mode (nth position mode_values "vanilla")) ;;
  self <- get_self ;;
  emit (show_success ("Selected: " ++ upper (optimization_mode self) ++ " mode")%string) ;;
  (* step 4 *)
  emit (show_step 4 4 "Final Review & Confirmation") ;;
  emit console_print ;;
  emit (show_panel (plan_panel self) "Ready to Start") ;;
  emit (confirm "Proceed with installation?" true) ;;
  proceed <- lift (confirm_final w) ;;
  if negb proceed then
    emit (show_warning "Installation cancelled by user") ;;
    ret 1
  else
  let config := run_config w self in
  lift (config_write w) ;;
  emit (json_dump config_file config) ;;
  emit console_print ;;
  emit (show_success "Configuration saved successfully!") ;;
  emit console_print ;;
  emit (show_info "Next steps: Compilation -> IOMMU configuration -> initramfs update -> Done!") ;;
  ret 0.

Definition run (w : World) : M Z :=
  try_except (run_body w)
    [ (KeyboardInterrupt, fun _ =>
         emit console_print ;;
         emit (show_warning "Installation cancelled by user (Ctrl+C)") ;;
         ret 1);
      (Exception, fun e =>
         emit console_print ;;
         emit (show_error ("An error occurred: " ++ exc_str e)%string) ;;
         emit (print_exc e) ;;
         ret 1) ].

(** [main]: the privilege check, then a fresh wizard is run. *)
Definition main (w : World) : result Z * Wizard * list event :=
  if negb (euid w =? 0) then
    (Ok 1, init, [print_line "This script must be run as root (use sudo)"])
  else run w init [].

(** ** Notions used to state the properties *)

(** The first dash-separated segment of a name, and its dot-separated parts. *)
Definition dash_prefix (name : string) : string := hd EmptyString (split "-" name).

Definition dot_parts (name : string) : list string := split "." (dash_prefix name).

(** What one entry of the modules directory adds to the inventory. *)
Definition entry_records (fs : Filesystem) (release name : string) : list KernelInfo :=
  match inventory_step fs release [] name with
  | Ok l => l
  | Raise _ => []
  end.

(** [l1] is [l2] with some elements left out, the order kept. *)
Inductive Subseq {A : Type} : list A -> list A -> Prop :=
| Subseq_nil : Subseq [] []
| Subseq_skip x l1 l2 : Subseq l1 l2 -> Subseq l1 (x :: l2)
| Subseq_take x l1 l2 : Subseq l1 l2 -> Subseq (x :: l1) (x :: l2).

Definition eligible (k : KernelInfo) : bool := supported k && headers_installed k.

(** [a <= b] on names, in the order Python gives to text. *)
Definition name_le (a b : string) : Prop :=
  compare_code_points (utf8_decode a) (utf8_decode b) <> Gt.

(** The name's dash prefix reads as [<int>.<int>] or [<int>.<int>.<int>]. *)
Definition parses_as (name : string) (M m : Z) : Prop :=
  exists a b, int a = Ok M /\ int b = Ok m /\
    (dot_parts name = [a; b] \/
     exists c p, dot_parts name = [a; b; c] /\ int c = Ok p).

(** One of the major, minor and patch positions holds something [int] rejects. *)
Definition bad_component (name : string) : Prop :=
  exists i c e, (i < 3)%nat /\ nth_error (dot_parts name) i = Some c /\ int c = Raise e.

(** [k] is the record the loop builds for the entry [name]. *)
Record produced (fs : Filesystem) (release name : string) (k : KernelInfo) : Prop := {
  produced_dir : path_is_dir fs (joinpath modules_dir name) = true;
  produced_parse : parse_version name = Ok (major k, minor k, patch k, version k);
  produced_name : full_version k = name;
  produced_supported :
    supported k = (major k =? 6) && int_in (minor k) [16; 17; 18];
  produced_headers_path :
    headers_path k = joinpath (joinpath modules_dir name) "build";
  produced_headers :
    headers_installed k =
      path_exists fs (headers_path k) && path_is_dir fs (headers_path k);
  produced_current : is_current k = String.eqb name release
}.

(** A file system given by a table of what its paths resolve to. *)
Definition stat_of (table : list (string * ftype)) (p : string) : option ftype :=
  match find (fun entry => String.eqb (fst entry) p) table with
  | Some (_, t) => Some t
  | None => None
  end.

(** A modules directory with two parsable kernels that have headers, one
    whose [build] is a regular file, one without [build], a one-number
    name, a name whose patch is not a number, and a plain file; the
    system lists them in no particular order. *)
Definition example_fs : Filesystem := {|
  stat := stat_of
    [ ("/lib/modules", Directory);
      ("/lib/modules/6.9.0-old", Directory);
      ("/lib/modules/6.16.3", Directory);
      ("/lib/modules/6.16.3/build", RegularFile);
      ("/lib/modules/6.17.0-1-generic", Directory);
      ("/lib/modules/6.17.0-1-generic/build", Directory);
      ("/lib/modules/6.19.0-2-generic", Directory);
      ("/lib/modules/6.19.0-2-generic/build", Directory);
      ("/lib/modules/6", Directory);
      ("/lib/modules/6.17.0+", Directory);
      ("/lib/modules/6.17.0+/build", Directory);
      ("/lib/modules/README", RegularFile);
      ("/opt/vmware/scripts/detect_hardware.py", RegularFile);
      ("/opt/vmware/scripts/check_and_fix_memory.py", RegularFile) ];
  listdir := fun p =>
    if String.eqb p "/lib/modules"
    then [ "6.9.0-old"; "README"; "6.19.0-2-generic"; "6.17.0+"; "6";
           "6.17.0-1-generic"; "6.16.3" ]%string
    else []
|}.

Definition example_release : string := "6.17.0-1-generic".

Definition example_kernel : KernelInfo :=
  {| version := "6.17"; full_version := "6.17.0-1-generic";
     major := 6; minor := 17; patch := 0;
     headers_installed := true;
     headers_path := "/lib/modules/6.17.0-1-generic/build";
     is_current := true; supported := true |}.

Definition example_inventory : list KernelInfo :=
  [ {| version := "6.0"; full_version := "6"; major := 6; minor := 0; patch := 0;
       headers_installed := false; headers_path := "/lib/modules/6/build";
       is_current := false; supported := false |};
    {| version := "6.16"; full_version := "6.16.3"; major := 6; minor := 16; patch := 3;
       headers_installed := false; headers_path := "/lib/modules/6.16.3/build";
       is_current := false; supported := true |};
    example_kernel;
    {| version := "6.19"; full_version := "6.19.0-2-generic";
       major := 6; minor := 19; patch := 0;
       headers_installed := true;
       headers_path := "/lib/modules/6.19.0-2-generic/build";
       is_current := false; supported := false |};
    {| version := "6.9"; full_version := "6.9.0-old"; major := 6; minor := 9; patch := 0;
       headers_installed := false; headers_path := "/lib/modules/6.9.0-old/build";
       is_current := false; supported := false |} ].

(** A modules root whose only entry is the directory of a kernel built
    from a modified tree, which is the kernel that runs. *)
Definition plus_fs : Filesystem := {|
  stat := stat_of
    [ ("/lib/modules", Directory);
      ("/lib/modules/6.17.0+", Directory);
      ("/lib/modules/6.17.0+/build", Directory) ];
  listdir := fun p => if String.eqb p "/lib/modules" then ["6.17.0+"%string] else []
|}.

Definition plus_release : string := "6.17.0+".

(** Events of the subprocess kind, which is all the memory pre-check emits. *)
Definition process_event (ev : event) : Prop :=
  match ev with
  | subprocess_run _ | sleep _ => True
  | _ => False
  end.

(** Events the hardware detection can emit. *)
Definition probe_event (ev : event) : Prop :=
  match ev with
  | subprocess_run _ | show_warning _ => True
  | _ => False
  end.

Definition memory_checker (w : World) : string :=
  joinpath (script_dir w) "check_and_fix_memory.py".

Definition detect_script (w : World) : string :=
  joinpath (script_dir w) "detect_hardware.py".

Definition probe_warning (e : exc) : event :=
  show_warning ("Hardware detection failed: " ++ exc_str e)%string.

Definition probe_started (w : World) : event :=
  subprocess_run [executable w; detect_script w].

(** The first of the capability files that exists, as the loop finds it. *)
Fixpoint first_existing (w : World) (json_files : list string) : option (result pyval) :=
  match json_files with
  | [] => None
  | json_file :: rest =>
      match capabilities_file w json_file with
      | Some loaded => Some loaded
      | None => first_existing w rest
      end
  end.

(** Reading a written configuration. *)
Definition config_get (key : string) (config : pyval) : option pyval :=
  match config with
  | PDict items => lookup key items
  | _ => None
  end.

Definition config_keys (config : pyval) : list string :=
  match config with
  | PDict items => keys items
  | _ => []
  end.

(** The trace of a run. *)
Definition trace_of {A} (outcome : result A * Wizard * list event) : list event :=
  snd outcome.

Definition example_caps : pyval :=
  PDict [ ("optimization",
            PDict [ ("recommended_mode", PStr "vanilla");
                    ("optimization_score", PInt 35) ]) ].

(** A world around a file system: the operator says yes twice, picks the
    first kernel and the given mode; the first capability file is as given
    and the second does not exist. *)
Definition world_with (files : Filesystem) (running : string)
    (memory probed : result Z) (caps_file : option (result pyval))
    (mode_position : nat) : World := {|
  fs := files;
  release := running;
  euid := 0;
  pid := 4242;
  script_dir := "/opt/vmware/scripts";
  executable := "/usr/bin/python3";
  memory_fix := memory;
  probe := probed;
  capabilities_file := fun p =>
    if String.eqb p "/tmp/vmware_hw_capabilities.json" then caps_file else None;
  confirm_start := Ok true;
  kernel_pick := Ok 0%nat;
  mode_pick := Ok mode_position;
  confirm_final := Ok true;
  config_write := Ok tt;
  clock := 1730000000 # 1
|}.

(** All goes well, and the operator picks vanilla. *)
Definition example_world : World :=
  world_with example_fs example_release (Ok 0) (Ok 0) (Some (Ok example_caps)) 1.

(** The configuration the wizard writes in [example_world]. *)
Definition example_config : pyval :=
  PDict [ ("selected_kernels",
            PList [ PDict [ ("full_version", PStr "6.17.0-1-generic");
                            ("version", PStr "6.17");
                            ("major", PInt 6); ("minor", PInt 17); ("patch", PInt 0);
                            ("is_current", PBool true) ] ]);
          ("optimization_mode", PStr "vanilla");
          ("hw_capabilities", example_caps);
          ("timestamp", PFloat (1730000000 # 1));
          ("auto_configure_iommu", PBool false) ].

(** The probe exits with status 1 and a capability file is there. *)
Definition failed_probe_world : World :=
  world_with example_fs example_release (Ok 1) (Ok 1) (Some (Ok example_caps)) 0.

(** The probe runs out of time, and the memory checker cannot be started. *)
Definition timeout_world : World :=
  world_with example_fs example_release
    (Raise (mkExc FileNotFoundError "[Errno 2] No such file or directory: 'sudo'"))
    (Raise (mkExc TimeoutExpired "timed out after 30 seconds"))
    (Some (Ok example_caps)) 0.

(** The operator presses Ctrl+C while the memory checker runs. *)
Definition interrupted_world : World :=
  world_with example_fs example_release
    (Raise (mkExc KeyboardInterrupt "")) (Ok 0) (Some (Ok example_caps)) 0.

(** All goes well until the configuration file cannot be opened. *)
Definition unwritable_world : World := {|
  fs := example_fs;
  release := example_release;
  euid := 0;
  pid := 4242;
  script_dir := "/opt/vmware/scripts";
  executable := "/usr/bin/python3";
  memory_fix := Ok 1;
  probe := Ok 0;
  capabilities_file := fun _ => None;
  confirm_start := Ok true;
  kernel_pick := Ok 0%nat;
  mode_pick := Ok 0%nat;
  confirm_final := Ok true;
  config_write :=
    Raise (mkExc PermissionError
             "[Errno 13] Permission denied: '/tmp/vmware_wizard_config.json'");
  clock := 1730000000 # 1
|}.

(** The operator says no to the first confirmation. *)
Definition declined_world : World := {|
  fs := example_fs;
  release := example_release;
  euid := 0;
  pid := 4242;
  script_dir := "/opt/vmware/scripts";
  executable := "/usr/bin/python3";
  memory_fix := Ok 1;
  probe := Ok 0;
  capabilities_file := fun _ => None;
  confirm_start := Ok false;
  kernel_pick := Ok 0%nat;
  mode_pick := Ok 0%nat;
  confirm_final := Ok true;
  config_write := Ok tt;
  clock := 1730000000 # 1
|}.

(** The first capability file is malformed, the one named after the
    process holds capabilities. *)
Definition malformed_first_world : World := {|
  fs := example_fs;
  release := example_release;
  euid := 0;
  pid := 4242;
  script_dir := "/opt/vmware/scripts";
  executable := "/usr/bin/python3";
  memory_fix := Ok 1;
  probe := Ok 0;
  capabilities_file := fun p =>
    if String.eqb p "/tmp/vmware_hw_capabilities.json"
    then Some (Raise (mkExc JSONDecodeError "Expecting value: line 1 column 1 (char 0)"))
    else if String.eqb p "/tmp/vmware_hw_capabilities_4242.json"
    then Some (Ok example_caps)
    else None;
  confirm_start := Ok true;
  kernel_pick := Ok 0%nat;
  mode_pick := Ok 0%nat;
  confirm_final := Ok true;
  config_write := Ok tt;
  clock := 1730000000 # 1
|}.

(** A kernel whose name has a fourth part, and not a number. *)
Definition four_part_fs : Filesystem := {|
  stat := stat_of
    [ ("/lib/modules", Directory);
      ("/lib/modules/6.17.0.custom-1", Directory) ];
  listdir := fun p =>
    if String.eqb p "/lib/modules" then ["6.17.0.custom-1"%string] else []
|}.






(** The modules root is a regular file. *)
Definition broken_root_fs : Filesystem := {|
  stat := stat_of [ ("/lib/modules", RegularFile) ];
  listdir := fun _ => []
|}.

Definition broken_root_world : World :=
  world_with broken_root_fs example_release (Ok 1) (Ok 0) None 0.

(** Kernels are installed, none of them supported with headers. *)
Definition bare_fs : Filesystem := {|
  stat := stat_of
    [ ("/lib/modules", Directory);
      ("/lib/modules/6.17.0-1-generic", Directory);
      ("/lib/modules/6.19.0-2-generic", Directory);
      ("/lib/modules/6.19.0-2-generic/build", Directory);
      ("/opt/vmware/scripts/detect_hardware.py", RegularFile) ];
  listdir := fun p =>
    if String.eqb p "/lib/modules"
    then [ "6.19.0-2-generic"; "6.17.0-1-generic" ]%string
    else []
|}.

Definition bare_world : World :=
  world_with bare_fs example_release (Ok 1) (Ok 0) None 0.

(** [c in s] *)
Fixpoint has_char (c : ascii) (s : string) : bool :=
  match s with
  | EmptyString => false
  | String x rest => Ascii.eqb x c || has_char c rest
  end.

(** The label of a kernel in the selection menu. *)
Definition menu_label (kernel : KernelInfo) : string :=
  if is_current kernel
  then (" " ++ full_version kernel ++ " (current)")%string
  else ("   " ++ full_version kernel)%string.

Definition all_kernels_entry : string * choice_value :=
  ("All supported kernels with headers"%string, ChoiceAll).

(** The kernels a position of the menu selects among the eligible ones. *)
Definition selection (eligible_kernels : list KernelInfo) (position : nat)
  : list KernelInfo :=
  match nth_error eligible_kernels position with
  | Some k => [k]
  | None => eligible_kernels
  end.

(** ** Lists, strings and sorting *)

Lemma string_append_assoc (a b c : string) :
  ((a ++ b) ++ c)%string = (a ++ b ++ c)%string.
Proof. induction a as [|x a IH]; cbn; [reflexivity|now rewrite IH]. Qed.

Lemma split_not_nil sep s : split sep s <> [].
Proof.
  destruct s as [|c s]; simpl; [discriminate|].
  destruct (Ascii.eqb c sep); [discriminate|].
  destruct (split sep s); discriminate.
Qed.

Lemma getitem_split_0 sep s : getitem (split sep s) 0 = Ok (hd EmptyString (split sep s)).
Proof.
  pose proof (split_not_nil sep s) as H.
  destruct (split sep s); [contradiction|reflexivity].
Qed.

Lemma int_raises_ValueError s e : int s = Raise e -> exc_type e = ValueError.
Proof.
  unfold int. destruct (long_from_string _); intros H; inversion H. reflexivity.
Qed.

(** ** The version parser *)

Lemma getitem_raises_IndexError {A} (l : list A) i e :
  getitem l i = Raise e -> exc_type e = IndexError.
Proof.
  unfold getitem. destruct (nth_error l i); intros H; inversion H; reflexivity.
Qed.

(** [parse_version] in terms of the parts of the name. *)
Lemma parse_version_parts name :
  parse_version name =
    (major <- (p0 <- getitem (dot_parts name) 0 ;; int p0) ;;
     minor <- (if 1 <? len (dot_parts name)
               then p1 <- getitem (dot_parts name) 1 ;; int p1 else Ok 0) ;;
     patch <- (if 2 <? len (dot_parts name)
               then p2 <- getitem (dot_parts name) 2 ;; int p2 else Ok 0) ;;
     Ok (major, minor, patch,
         (str_of_int major ++ "." ++ str_of_int minor)%string))%py.
Proof.
  unfold parse_version. rewrite getitem_split_0. reflexivity.
Qed.

(** The only exceptions the [try] block raises are the two it catches. *)
Lemma parse_version_raises name e :
  parse_version name = Raise e ->
  isinstance e ValueError || isinstance e IndexError = true.
Proof.
  rewrite parse_version_parts. unfold bind, isinstance. intros H.
  assert (exc_type e = ValueError \/ exc_type e = IndexError) as [E|E];
    [|rewrite E; reflexivity|rewrite E; reflexivity].
  repeat match type of H with
         | context [getitem ?l ?i] =>
             let G := fresh "G" in
             destruct (getitem l i) eqn:G;
             [|inversion H; subst; right; exact (getitem_raises_IndexError _ _ _ G)]
         | context [int ?s] =>
             let G := fresh "G" in
             destruct (int s) eqn:G;
             [|inversion H; subst; left; exact (int_raises_ValueError _ _ G)]
         | context [if ?c then _ else _] => destruct c
         end; discriminate H.
Qed.

Lemma parse_version_one name a M :
  dot_parts name = [a] -> int a = Ok M ->
  parse_version name = Ok (M, 0, 0, (str_of_int M ++ "." ++ str_of_int 0)%string).
Proof.
  intros Hp Ha. rewrite parse_version_parts, Hp. cbn. rewrite Ha. reflexivity.
Qed.

Lemma parse_version_two name a b M m :
  dot_parts name = [a; b] -> int a = Ok M -> int b = Ok m ->
  parse_version name = Ok (M, m, 0, (str_of_int M ++ "." ++ str_of_int m)%string).
Proof.
  intros Hp Ha Hb. rewrite parse_version_parts, Hp. cbn. rewrite Ha. cbn.
  rewrite Hb. reflexivity.
Qed.

Lemma parse_version_three name a b c rest M m p :
  dot_parts name = a :: b :: c :: rest ->
  int a = Ok M -> int b = Ok m -> int c = Ok p ->
  parse_version name = Ok (M, m, p, (str_of_int M ++ "." ++ str_of_int m)%string).
Proof.
  intros Hp Ha Hb Hc. rewrite parse_version_parts, Hp.
  assert (H1 : (1 <? len (a :: b :: c :: rest)) = true)
    by (apply Z.ltb_lt; unfold len; cbn [List.length]; lia).
  assert (H2 : (2 <? len (a :: b :: c :: rest)) = true)
    by (apply Z.ltb_lt; unfold len; cbn [List.length]; lia).
  rewrite H1, H2. cbn. rewrite Ha. cbn. rewrite Hb. cbn. rewrite Hc. reflexivity.
Qed.

(** The version string and the numbers of a successful parse. *)
Lemma parse_version_version name M m p v :
  parse_version name = Ok (M, m, p, v) ->
  v = (str_of_int M ++ "." ++ str_of_int m)%string.
Proof.
  rewrite parse_version_parts. unfold bind. intros H.
  repeat match type of H with
         | context [match ?x with _ => _ end] => destruct x; try discriminate H
         end; inversion H; reflexivity.
Qed.

Lemma parse_version_bad name :
  bad_component name -> exists e, parse_version name = Raise e.
Proof.
  intros (i & c & e & Hi & Hn & Hc). rewrite parse_version_parts.
  destruct (dot_parts name) as [|a [|b [|d rest]]] eqn:Hp;
    destruct i as [|[|[|i]]]; try lia; cbn in Hn; try discriminate Hn;
    inversion Hn; subst; clear Hn.
  - cbn. rewrite Hc. eexists; reflexivity.
  - cbn. rewrite Hc. eexists; reflexivity.
  - cbn. destruct (int a); cbn; [rewrite Hc|]; eexists; reflexivity.
  - cbn. rewrite Hc. eexists; reflexivity.
  - assert (H2 : (2 <? len (a :: c :: d :: rest)) = true)
      by (apply Z.ltb_lt; unfold len; cbn [List.length]; lia).
    assert (H1 : (1 <? len (a :: c :: d :: rest)) = true)
      by (apply Z.ltb_lt; unfold len; cbn [List.length]; lia).
    rewrite H1, H2. cbn. destruct (int a); cbn; [rewrite Hc|]; eexists; reflexivity.
  - assert (H2 : (2 <? len (a :: b :: c :: rest)) = true)
      by (apply Z.ltb_lt; unfold len; cbn [List.length]; lia).
    assert (H1 : (1 <? len (a :: b :: c :: rest)) = true)
      by (apply Z.ltb_lt; unfold len; cbn [List.length]; lia).
    rewrite H1, H2. cbn. destruct (int a); cbn; [|eexists; reflexivity].
    destruct (int b); cbn; [rewrite Hc|]; eexists; reflexivity.
Qed.

(** ** One pass of the inventory loop *)

Lemma inventory_step_app fs release kernels name :
  inventory_step fs release kernels name =
    Ok (kernels ++ entry_records fs release name).
Proof.
  unfold entry_records, inventory_step.
  destruct (path_is_dir fs (joinpath modules_dir name)); cbn.
  - destruct (parse_version name) as [[[[M m] p] v]|e] eqn:E.
    + reflexivity.
    + rewrite (parse_version_raises _ _ E). now rewrite app_nil_r.
  - now rewrite app_nil_r.
Qed.

Lemma entry_records_skipped fs release name :
  path_is_dir fs (joinpath modules_dir name) = false \/
  (exists e, parse_version name = Raise e) ->
  entry_records fs release name = [].
Proof.
  unfold entry_records, inventory_step. intros [H|[e H]].
  - rewrite H. reflexivity.
  - destruct (path_is_dir fs (joinpath modules_dir name)); cbn; [|reflexivity].
    rewrite H, (parse_version_raises _ _ H). reflexivity.
Qed.

Lemma entry_records_parsed fs release name M m p v :
  path_is_dir fs (joinpath modules_dir name) = true ->
  parse_version name = Ok (M, m, p, v) ->
  exists k, entry_records fs release name = [k] /\
            major k = M /\ minor k = m /\ patch k = p /\ version k = v /\
            produced fs release name k.
Proof.
  intros Hd Hp. unfold entry_records, inventory_step. rewrite Hd, Hp. cbn.
  eexists. split; [reflexivity|].
  repeat split; cbn; try reflexivity; assumption.
Qed.

Lemma entry_records_cases fs release name :
  entry_records fs release name = [] \/
  exists k, entry_records fs release name = [k] /\ produced fs release name k.
Proof.
  destruct (path_is_dir fs (joinpath modules_dir name)) eqn:Hd.
  - destruct (parse_version name) as [[[[M m] p] v]|e] eqn:Hp.
    + destruct (entry_records_parsed fs release name M m p v Hd Hp)
        as (k & Hk & _ & _ & _ & _ & Hprod).
      right. eauto.
    + left. apply entry_records_skipped. eauto.
  - left. apply entry_records_skipped. auto.
Qed.

Lemma entry_records_produced fs release name k :
  In k (entry_records fs release name) -> produced fs release name k.
Proof.
  destruct (entry_records_cases fs release name) as [E|(k' & E & Hk)];
    rewrite E; cbn; intros H.
  - contradiction.
  - destruct H as [<-|[]]. exact Hk.
Qed.

Lemma for_each_inventory fs release names kernels :
  for_each names (inventory_step fs release) kernels =
    Ok (kernels ++ flat_map (entry_records fs release) names).
Proof.
  revert kernels. induction names as [|name names IH]; intros kernels; cbn.
  - now rewrite app_nil_r.
  - rewrite inventory_step_app. cbn. rewrite IH, <- app_assoc. reflexivity.
Qed.

(** ** [sorted] *)

Lemma insert_sorted_perm x l : Permutation (x :: l) (insert_sorted x l).
Proof.
  induction l as [|y l IH]; cbn.
  - apply Permutation_refl.
  - destruct (str_lt x y).
    + apply Permutation_refl.
    + eapply perm_trans; [apply perm_swap|]. now apply perm_skip.
Qed.

Lemma fold_insert_perm l acc :
  Permutation (fold_left (fun acc x => insert_sorted x acc) l acc) (l ++ acc).
Proof.
  revert acc. induction l as [|x l IH]; intros acc; cbn.
  - apply Permutation_refl.
  - eapply perm_trans; [apply IH|].
    eapply perm_trans; [apply Permutation_app_head, Permutation_sym, insert_sorted_perm|].
    apply Permutation_sym, Permutation_middle.
Qed.

Lemma sorted_perm l : Permutation (sorted l) l.
Proof.
  unfold sorted. eapply perm_trans; [apply fold_insert_perm|].
  now rewrite app_nil_r.
Qed.

Lemma compare_code_points_antisym a b :
  compare_code_points a b = CompOpp (compare_code_points b a).
Proof.
  revert b. induction a as [|x a IH]; intros [|y b]; cbn; try reflexivity.
  rewrite (N.compare_antisym y x). destruct (N.compare y x); cbn; auto.
Qed.

Lemma str_lt_le a b : str_lt a b = true -> name_le a b.
Proof.
  unfold str_lt, name_le.
  now destruct (compare_code_points (utf8_decode a) (utf8_decode b)).
Qed.

Lemma not_str_lt_le a b : str_lt a b = false -> name_le b a.
Proof.
  unfold str_lt, name_le.
  rewrite (compare_code_points_antisym (utf8_decode b) (utf8_decode a)).
  now destruct (compare_code_points (utf8_decode a) (utf8_decode b)).
Qed.

Lemma insert_sorted_hd x y l :
  name_le y x -> HdRel name_le y l -> HdRel name_le y (insert_sorted x l).
Proof.
  intros Hyx H. destruct l as [|z l]; cbn.
  - now constructor.
  - inversion H; subst. destruct (str_lt x z); now constructor.
Qed.

Lemma insert_sorted_Sorted x l :
  Sorted name_le l -> Sorted name_le (insert_sorted x l).
Proof.
  induction 1 as [|y l Hs IH Hhd]; cbn.
  - repeat constructor.
  - destruct (str_lt x y) eqn:E.
    + constructor; [now constructor|]. constructor. now apply str_lt_le.
    + constructor; [exact IH|]. apply insert_sorted_hd; [|exact Hhd].
      now apply not_str_lt_le.
Qed.

Lemma fold_insert_Sorted l acc :
  Sorted name_le acc ->
  Sorted name_le (fold_left (fun acc x => insert_sorted x acc) l acc).
Proof.
  revert acc. induction l as [|x l IH]; intros acc H; cbn; [exact H|].
  apply IH, insert_sorted_Sorted, H.
Qed.

Lemma sorted_Sorted l : Sorted name_le (sorted l).
Proof. apply fold_insert_Sorted. constructor. Qed.

(** ** The whole inventory *)

Lemma detect_installed_kernels_dir fs release :
  stat fs modules_dir = Some Directory ->
  detect_installed_kernels fs release =
    Ok (flat_map (entry_records fs release) (sorted (listdir fs modules_dir))).
Proof.
  intros H. unfold detect_installed_kernels, path_exists, iterdir. rewrite H. cbn.
  apply for_each_inventory.
Qed.

Lemma detect_installed_kernels_missing fs release :
  stat fs modules_dir = None -> detect_installed_kernels fs release = Ok [].
Proof.
  intros H. unfold detect_installed_kernels, path_exists. now rewrite H.
Qed.

Lemma detect_installed_kernels_In fs release ks k :
  detect_installed_kernels fs release = Ok ks ->
  In k ks ->
  In (full_version k) (listdir fs modules_dir) /\
  produced fs release (full_version k) k.
Proof.
  intros Hd Hk. destruct (stat fs modules_dir) as [[|]|] eqn:Hs.
  - unfold detect_installed_kernels, path_exists, iterdir in Hd.
    rewrite Hs in Hd. discriminate Hd.
  - rewrite (detect_installed_kernels_dir _ _ Hs) in Hd. inversion Hd; subst.
    apply in_flat_map in Hk. destruct Hk as (name & Hname & Hk).
    apply entry_records_produced in Hk.
    rewrite (produced_name _ _ _ _ Hk). split; [|exact Hk].
    eapply Permutation_in; [apply sorted_perm|exact Hname].
  - rewrite (detect_installed_kernels_missing _ _ Hs) in Hd. inversion Hd; subst.
    contradiction.
Qed.

Lemma detect_installed_kernels_entry fs release name M m p v :
  stat fs modules_dir = Some Directory ->
  In name (listdir fs modules_dir) ->
  path_is_dir fs (joinpath modules_dir name) = true ->
  parse_version name = Ok (M, m, p, v) ->
  exists ks k, detect_installed_kernels fs release = Ok ks /\ In k ks /\
               full_version k = name.
Proof.
  intros Hs Hin Hd Hp. rewrite (detect_installed_kernels_dir _ _ Hs).
  destruct (entry_records_parsed fs release name M m p v Hd Hp)
    as (k & Hk & _ & _ & _ & _ & Hprod).
  eexists. exists k. split; [reflexivity|]. split.
  - apply in_flat_map. exists name. split.
    + eapply Permutation_in; [apply Permutation_sym, sorted_perm|exact Hin].
    + rewrite Hk. now left.
  - exact (produced_name _ _ _ _ Hprod).
Qed.

Example example_inventory_detected :
  detect_installed_kernels example_fs example_release = Ok example_inventory.
Proof. vm_compute. reflexivity. Qed.

(** ** Properties of the kernel inventory *)

Lemma parses_as_parse_version name M m :
  parses_as name M m ->
  exists p, parse_version name =
              Ok (M, m, p, (str_of_int M ++ "." ++ str_of_int m)%string).
Proof.
  intros (a & b & Ha & Hb & [Hp|(c & p & Hp & Hc)]).
  - exists 0. now apply (parse_version_two name a b).
  - exists p. now apply (parse_version_three name a b c []).
Qed.

Lemma supported_spec M m :
  (M =? 6) && int_in m [16; 17; 18] = true <-> M = 6 /\ In m [16; 17; 18].
Proof.
  unfold int_in. rewrite andb_true_iff, Z.eqb_eq, existsb_exists. split.
  - intros [HM (x & Hx & E)]. apply Z.eqb_eq in E. subst x. auto.
  - intros [HM Hm]. split; [exact HM|]. exists m. split; [exact Hm|apply Z.eqb_refl].
Qed.

(** C1.  A name whose dash prefix reads as [<int>.<int>] or
    [<int>.<int>.<int>] gets a record in the inventory when it is a
    directory of the modules root; every record of that name has the two
    numbers as major and minor, the version ["{major}.{minor}"], and is
    supported exactly when major is 6 and minor is one of 16, 17, 18; a
    minor of 19 is not supported. *)
Theorem parsed_name_version_and_support fs release name M m ks :
  parses_as name M m ->
  detect_installed_kernels fs release = Ok ks ->
  (stat fs modules_dir = Some Directory ->
   In name (listdir fs modules_dir) ->
   path_is_dir fs (joinpath modules_dir name) = true ->
   exists k, In k ks /\ full_version k = name) /\
  (forall k, In k ks -> full_version k = name ->
     major k = M /\ minor k = m /\
     version k = (str_of_int M ++ "." ++ str_of_int m)%string /\
     (supported k = true <-> M = 6 /\ In m [16; 17; 18]) /\
     (m = 19 -> supported k = false)).
Proof.
  intros Hname Hd. destruct (parses_as_parse_version _ _ _ Hname) as (p & Hp).
  split.
  - intros Hs Hin Hdir.
    destruct (detect_installed_kernels_entry fs release name _ _ _ _ Hs Hin Hdir Hp)
      as (ks' & k & Hd' & Hk & Hn).
    rewrite Hd in Hd'. inversion Hd'; subst ks'. eauto.
  - intros k Hk Hn.
    destruct (detect_installed_kernels_In _ _ _ _ Hd Hk) as [_ Hprod].
    rewrite Hn in Hprod. pose proof (produced_parse _ _ _ _ Hprod) as Hq.
    rewrite Hp in Hq. inversion Hq as [[HM Hm Hpp Hv]].
    rewrite (produced_supported _ _ _ _ Hprod), <- HM, <- Hm.
    split; [reflexivity|]. split; [reflexivity|]. split; [reflexivity|].
    split; [apply supported_spec|].
    intros ->. now destruct (M =? 6).
Qed.

Lemma parsed_name_version_and_support_witness :
  parses_as "6.19.0-2-generic" 6 19 /\
  detect_installed_kernels example_fs example_release = Ok example_inventory /\
  ((stat example_fs modules_dir = Some Directory ->
    In "6.19.0-2-generic"%string (listdir example_fs modules_dir) ->
    path_is_dir example_fs (joinpath modules_dir "6.19.0-2-generic") = true ->
    exists k, In k example_inventory /\ full_version k = "6.19.0-2-generic"%string) /\
   (forall k, In k example_inventory -> full_version k = "6.19.0-2-generic"%string ->
      major k = 6 /\ minor k = 19 /\
      version k = (str_of_int 6 ++ "." ++ str_of_int 19)%string /\
      (supported k = true <-> 6 = 6 /\ In 19 [16; 17; 18]) /\
      (19 = 19 -> supported k = false))).
Proof.
  assert (H1 : parses_as "6.19.0-2-generic" 6 19).
  { exists "6"%string, "19"%string. split; [reflexivity|]. split; [reflexivity|].
    right. exists "0"%string, 0. split; reflexivity. }
  assert (H2 : detect_installed_kernels example_fs example_release = Ok example_inventory)
    by (vm_compute; reflexivity).
  split; [exact H1|]. split; [exact H2|].
  exact (parsed_name_version_and_support example_fs example_release
           "6.19.0-2-generic" 6 19 example_inventory H1 H2).
Defined.

(** The inventory builder returns whenever the modules root is a directory
    or is missing; it raises only when the root is not a directory. *)
Lemma detect_installed_kernels_returns fs release :
  stat fs modules_dir <> Some RegularFile ->
  exists ks, detect_installed_kernels fs release = Ok ks.
Proof.
  intros H. destruct (stat fs modules_dir) as [[|]|] eqn:Hs.
  - contradiction.
  - rewrite (detect_installed_kernels_dir _ _ Hs). eauto.
  - rewrite (detect_installed_kernels_missing _ _ Hs). eauto.
Qed.

(** C6.  With the modules root a directory, the inventory builder returns
    (nothing is raised), and an entry whose major, minor or patch
    position holds a non-integer has no record in the inventory; a
    directory entry with only a major gets a record with minor 0 and
    patch 0, and one with only major and minor a record with patch 0. *)
Theorem unparsable_entry_dropped fs release name :
  stat fs modules_dir = Some Directory ->
  exists ks, detect_installed_kernels fs release = Ok ks /\
    (bad_component name -> ~ exists k, In k ks /\ full_version k = name) /\
    (In name (listdir fs modules_dir) ->
     path_is_dir fs (joinpath modules_dir name) = true ->
     (forall a M, dot_parts name = [a] -> int a = Ok M ->
        exists k, In k ks /\ full_version k = name /\
                  major k = M /\ minor k = 0 /\ patch k = 0) /\
     (forall a b M m, dot_parts name = [a; b] -> int a = Ok M -> int b = Ok m ->
        exists k, In k ks /\ full_version k = name /\
                  major k = M /\ minor k = m /\ patch k = 0)).
Proof.
  intros Hs. destruct (detect_installed_kernels_returns fs release) as [ks Hd].
  { rewrite Hs. discriminate. }
  exists ks. split; [exact Hd|]. split.
  - intros Hbad (k & Hk & Hn).
    destruct (detect_installed_kernels_In _ _ _ _ Hd Hk) as [_ Hprod].
    rewrite Hn in Hprod. destruct (parse_version_bad _ Hbad) as [e He].
    pose proof (produced_parse _ _ _ _ Hprod) as Hq. rewrite He in Hq.
    discriminate Hq.
  - intros Hin Hdir.
    assert (Hrec : forall M m p v, parse_version name = Ok (M, m, p, v) ->
              exists k, In k ks /\ full_version k = name /\
                        major k = M /\ minor k = m /\ patch k = p).
    { intros M m p v Hp.
      destruct (detect_installed_kernels_entry fs release name _ _ _ _ Hs Hin Hdir Hp)
        as (ks' & k & Hd' & Hk & Hn).
      rewrite Hd in Hd'. inversion Hd'; subst ks'.
      destruct (detect_installed_kernels_In _ _ _ _ Hd Hk) as [_ Hprod].
      rewrite Hn in Hprod. pose proof (produced_parse _ _ _ _ Hprod) as Hq.
      rewrite Hp in Hq. inversion Hq. exists k. auto. }
    split.
    + intros a M Hp Ha. exact (Hrec _ _ _ _ (parse_version_one _ _ _ Hp Ha)).
    + intros a b M m Hp Ha Hb.
      exact (Hrec _ _ _ _ (parse_version_two _ _ _ _ _ Hp Ha Hb)).
Qed.

Lemma unparsable_entry_dropped_witness :
  stat example_fs modules_dir = Some Directory /\
  bad_component "6.17.0+" /\
  (exists ks, detect_installed_kernels example_fs example_release = Ok ks /\
     ~ (exists k, In k ks /\ full_version k = "6.17.0+"%string) /\
     (exists k, In k ks /\ full_version k = "6"%string /\
                major k = 6 /\ minor k = 0 /\ patch k = 0)).
Proof.
  assert (Hs : stat example_fs modules_dir = Some Directory) by reflexivity.
  assert (Hbad : bad_component "6.17.0+").
  { exists 2%nat, "0+"%string, (invalid_literal "0+").
    split; [lia|]. split; reflexivity. }
  split; [exact Hs|]. split; [exact Hbad|].
  destruct (unparsable_entry_dropped example_fs example_release "6.17.0+" Hs)
    as (ks & Hd & Hdrop & _).
  destruct (unparsable_entry_dropped example_fs example_release "6" Hs)
    as (ks' & Hd' & _ & Hdefault).
  rewrite Hd in Hd'. inversion Hd'; subst ks'.
  exists ks. split; [exact Hd|]. split; [exact (Hdrop Hbad)|].
  refine (proj1 (Hdefault _ _) "6"%string 6 _ _); try reflexivity.
  cbn. tauto.
Defined.

(** C7.  For every record of the inventory, the headers path is
    [/lib/modules/<name>/build] and [headers_installed] is true exactly
    when that path is a directory: false when nothing is there and false
    when a regular file is. *)
Theorem headers_installed_iff_build_dir fs release ks k :
  detect_installed_kernels fs release = Ok ks ->
  In k ks ->
  headers_path k = ("/lib/modules/" ++ full_version k ++ "/build")%string /\
  (headers_installed k = true <-> stat fs (headers_path k) = Some Directory) /\
  (stat fs (headers_path k) = None -> headers_installed k = false) /\
  (stat fs (headers_path k) = Some RegularFile -> headers_installed k = false).
Proof.
  intros Hd Hk. destruct (detect_installed_kernels_In _ _ _ _ Hd Hk) as [_ Hprod].
  pose proof (produced_headers_path _ _ _ _ Hprod) as Hpath.
  pose proof (produced_headers _ _ _ _ Hprod) as Hh.
  split.
  - rewrite Hpath. unfold joinpath, modules_dir.
    rewrite !string_append_assoc. reflexivity.
  - rewrite Hh. unfold path_exists, path_is_dir.
    destruct (stat fs (headers_path k)) as [[|]|]; cbn;
      repeat split; intros; congruence.
Qed.

Lemma headers_installed_iff_build_dir_witness :
  detect_installed_kernels example_fs example_release = Ok example_inventory /\
  In example_kernel example_inventory /\
  headers_path example_kernel =
    ("/lib/modules/" ++ full_version example_kernel ++ "/build")%string /\
  (headers_installed example_kernel = true <->
   stat example_fs (headers_path example_kernel) = Some Directory) /\
  (stat example_fs (headers_path example_kernel) = None ->
   headers_installed example_kernel = false) /\
  (stat example_fs (headers_path example_kernel) = Some RegularFile ->
   headers_installed example_kernel = false).
Proof.
  assert (Hd : detect_installed_kernels example_fs example_release = Ok example_inventory)
    by (vm_compute; reflexivity).
  assert (Hk : In example_kernel example_inventory) by (cbn; tauto).
  split; [exact Hd|]. split; [exact Hk|].
  exact (headers_installed_iff_build_dir example_fs example_release
           example_inventory example_kernel Hd Hk).
Defined.

(** ** The record of the running kernel *)

Lemma filter_current_entry fs release name :
  filter is_current (entry_records fs release name) =
    if String.eqb name release then entry_records fs release name else [].
Proof.
  destruct (entry_records_cases fs release name) as [E|(k & E & Hk)]; rewrite E.
  - now destruct (String.eqb name release).
  - cbn. rewrite (produced_current _ _ _ _ Hk).
    now destruct (String.eqb name release).
Qed.

Lemma filter_current_absent fs release names :
  ~ In release names ->
  filter is_current (flat_map (entry_records fs release) names) = [].
Proof.
  induction names as [|name names IH]; cbn; intros H; [reflexivity|].
  rewrite filter_app, filter_current_entry, IH by tauto.
  destruct (String.eqb_spec name release) as [->|]; [tauto|reflexivity].
Qed.

Lemma filter_current_present fs release names :
  NoDup names -> In release names ->
  filter is_current (flat_map (entry_records fs release) names) =
    entry_records fs release release.
Proof.
  induction 1 as [|name names Hnotin Hnd IH]; cbn; intros Hin; [contradiction|].
  rewrite filter_app, filter_current_entry.
  destruct (String.eqb_spec name release) as [->|Hne].
  - rewrite filter_current_absent by exact Hnotin. now rewrite app_nil_r.
  - destruct Hin as [->|Hin]; [contradiction|]. cbn. now apply IH.
Qed.

(** C8, as the code has it.  With distinct names in the modules root and
    the running release the name of one of its directories: when that
    name parses, exactly one record of the inventory has [is_current]
    true, it is the record of that name, and every other record has it
    false; when the name does not parse, no record has it true. *)
Theorem current_kernel_record fs release ks :
  NoDup (listdir fs modules_dir) ->
  stat fs modules_dir = Some Directory ->
  In release (listdir fs modules_dir) ->
  path_is_dir fs (joinpath modules_dir release) = true ->
  detect_installed_kernels fs release = Ok ks ->
  ((exists v, parse_version release = Ok v) ->
   exists k, filter is_current ks = [k] /\ In k ks /\ full_version k = release /\
             forall k', In k' ks -> k' <> k -> is_current k' = false) /\
  ((exists e, parse_version release = Raise e) -> filter is_current ks = []).
Proof.
  intros Hnd Hs Hin Hdir Hd.
  rewrite (detect_installed_kernels_dir _ _ Hs) in Hd. inversion Hd as [Hks].
  assert (Hf : filter is_current ks = entry_records fs release release).
  { rewrite <- Hks. apply filter_current_present.
    - eapply Permutation_NoDup; [apply Permutation_sym, sorted_perm|exact Hnd].
    - eapply Permutation_in; [apply Permutation_sym, sorted_perm|exact Hin]. }
  rewrite Hks. split.
  - intros [[[[M m] p] v] Hp].
    destruct (entry_records_parsed fs release release M m p v Hdir Hp)
      as (k & Hk & _ & _ & _ & _ & Hprod).
    exists k. rewrite Hf, Hk. split; [reflexivity|].
    assert (Hkf : In k (filter is_current ks)) by (rewrite Hf, Hk; now left).
    apply filter_In in Hkf. destruct Hkf as [Hkin Hcur].
    split; [exact Hkin|]. split; [exact (produced_name _ _ _ _ Hprod)|].
    intros k' Hk' Hne. destruct (is_current k') eqn:Hc; [|reflexivity].
    exfalso. apply Hne.
    assert (Hk'f : In k' (filter is_current ks)) by (apply filter_In; auto).
    rewrite Hf, Hk in Hk'f. destruct Hk'f as [<-|[]]. reflexivity.
  - intros He. rewrite Hf. apply entry_records_skipped. now right.
Qed.

Lemma current_kernel_record_witness :
  NoDup (listdir example_fs modules_dir) /\
  stat example_fs modules_dir = Some Directory /\
  In example_release (listdir example_fs modules_dir) /\
  path_is_dir example_fs (joinpath modules_dir example_release) = true /\
  detect_installed_kernels example_fs example_release = Ok example_inventory /\
  (exists v, parse_version example_release = Ok v) /\
  (exists k, filter is_current example_inventory = [k] /\ In k example_inventory /\
             full_version k = example_release /\
             forall k', In k' example_inventory -> k' <> k -> is_current k' = false).
Proof.
  assert (H1 : NoDup (listdir example_fs modules_dir)).
  { cbn. repeat constructor; cbn; intuition discriminate. }
  assert (H2 : stat example_fs modules_dir = Some Directory) by reflexivity.
  assert (H3 : In example_release (listdir example_fs modules_dir)) by (cbn; tauto).
  assert (H4 : path_is_dir example_fs (joinpath modules_dir example_release) = true)
    by reflexivity.
  assert (H5 : detect_installed_kernels example_fs example_release = Ok example_inventory)
    by (vm_compute; reflexivity).
  assert (H6 : exists v, parse_version example_release = Ok v)
    by (eexists; vm_compute; reflexivity).
  repeat (split; [assumption|]).
  exact (proj1 (current_kernel_record example_fs example_release example_inventory
                  H1 H2 H3 H4 H5) H6).
Defined.

(** C8, as stated, fails: the release ["6.17.0+"] names a directory of
    the modules root, and no record of the inventory is current. *)
Lemma current_kernel_counterexample :
  In plus_release (listdir plus_fs modules_dir) /\
  path_is_dir plus_fs (joinpath modules_dir plus_release) = true /\
  ~ (exists ks k, detect_installed_kernels plus_fs plus_release = Ok ks /\
                  In k ks /\ is_current k = true).
Proof.
  split; [cbn; tauto|]. split; [reflexivity|].
  intros (ks & k & Hd & Hk & _).
  assert (E : detect_installed_kernels plus_fs plus_release = Ok [])
    by (vm_compute; reflexivity).
  rewrite E in Hd. inversion Hd; subst. contradiction.
Qed.

(** ** The eligibility filter *)

Lemma Subseq_nil_l {A} (l : list A) : Subseq [] l.
Proof. induction l; constructor; assumption. Qed.

Lemma Subseq_filter {A} (f : A -> bool) (l : list A) : Subseq (filter f l) l.
Proof.
  induction l as [|x l IH]; cbn; [constructor|].
  destruct (f x); constructor; exact IH.
Qed.

Lemma supported_with_headers_loop kernels acc :
  fold_left
    (fun acc k => if supported k && headers_installed k then acc ++ [k] else acc)
    kernels acc
  = acc ++ filter eligible kernels.
Proof.
  revert acc. induction kernels as [|k kernels IH]; intros acc; cbn.
  - now rewrite app_nil_r.
  - rewrite IH. unfold eligible at 2.
    destruct (supported k && headers_installed k); [|reflexivity].
    now rewrite <- app_assoc.
Qed.

Lemma supported_with_headers_filter kernels :
  supported_with_headers kernels = filter eligible kernels.
Proof. apply supported_with_headers_loop. Qed.

Lemma inventory_names_Subseq fs release names :
  Subseq (map full_version (flat_map (entry_records fs release) names)) names.
Proof.
  induction names as [|name names IH]; cbn; [constructor|].
  destruct (entry_records_cases fs release name) as [E|(k & E & Hk)]; rewrite E; cbn.
  - now constructor.
  - rewrite (produced_name _ _ _ _ Hk). now constructor.
Qed.

(** C2.  The kernels offered for selection are exactly the records of the
    inventory that are supported and have headers, in the order of the
    inventory; the inventory itself follows the directory listing sorted
    by name. *)
Theorem eligible_kernels_filtered_in_order fs release ks :
  detect_installed_kernels fs release = Ok ks ->
  supported_with_headers ks =
    filter (fun k => supported k && headers_installed k) ks /\
  (forall k, In k (supported_with_headers ks) <->
             In k ks /\ supported k = true /\ headers_installed k = true) /\
  Subseq (supported_with_headers ks) ks /\
  Subseq (map full_version ks) (sorted (listdir fs modules_dir)) /\
  Sorted name_le (sorted (listdir fs modules_dir)) /\
  Permutation (sorted (listdir fs modules_dir)) (listdir fs modules_dir).
Proof.
  intros Hd. rewrite supported_with_headers_filter.
  split; [reflexivity|]. split.
  { intros k. rewrite filter_In. unfold eligible. rewrite andb_true_iff. tauto. }
  split; [apply Subseq_filter|]. split; [|split; [apply sorted_Sorted|apply sorted_perm]].
  destruct (stat fs modules_dir) as [[|]|] eqn:Hs.
  - unfold detect_installed_kernels, path_exists, iterdir in Hd.
    rewrite Hs in Hd. discriminate Hd.
  - rewrite (detect_installed_kernels_dir _ _ Hs) in Hd. inversion Hd.
    apply inventory_names_Subseq.
  - rewrite (detect_installed_kernels_missing _ _ Hs) in Hd. inversion Hd.
    apply Subseq_nil_l.
Qed.

Lemma eligible_kernels_filtered_in_order_witness :
  detect_installed_kernels example_fs example_release = Ok example_inventory /\
  supported_with_headers example_inventory = [example_kernel] /\
  map full_version example_inventory =
    ["6"; "6.16.3"; "6.17.0-1-generic"; "6.19.0-2-generic"; "6.9.0-old"]%string /\
  Subseq (supported_with_headers example_inventory) example_inventory /\
  Subseq (map full_version example_inventory) (sorted (listdir example_fs modules_dir)).
Proof.
  assert (Hd : detect_installed_kernels example_fs example_release = Ok example_inventory)
    by (vm_compute; reflexivity).
  split; [exact Hd|]. split; [reflexivity|]. split; [reflexivity|].
  destruct (eligible_kernels_filtered_in_order example_fs example_release
              example_inventory Hd) as (_ & _ & H3 & H4 & _).
  split; assumption.
Defined.

(** ** Running a method step by step *)

Lemma bind_ret {A B} (a : A) (k : A -> M B) self tr :
  mbind (ret a) k self tr = k a self tr.
Proof. reflexivity. Qed.

Lemma bind_emit {B} (e : event) (k : unit -> M B) self tr :
  mbind (emit e) k self tr = k tt self (tr ++ [e]).
Proof. reflexivity. Qed.

Lemma bind_lift {A B} (r : result A) (k : A -> M B) self tr :
  mbind (lift r) k self tr =
    match r with
    | Ok a => k a self tr
    | Raise e => (Raise e, self, tr)
    end.
Proof. unfold mbind, lift. now destruct r. Qed.

Lemma bind_get_self {B} (k : Wizard -> M B) self tr :
  mbind get_self k self tr = k self self tr.
Proof. reflexivity. Qed.

Lemma bind_set_self {B} (f : Wizard -> Wizard) (k : unit -> M B) self tr :
  mbind (set_self f) k self tr = k tt (f self) tr.
Proof. reflexivity. Qed.

Lemma bind_bind {A B C} (m : M A) (k : A -> M B) (h : B -> M C) self tr :
  mbind (mbind m k) h self tr = mbind m (fun a => mbind (k a) h) self tr.
Proof.
  unfold mbind. destruct (m self tr) as [[[a|e] self'] tr']; reflexivity.
Qed.

Lemma bind_result {A B} (m : M A) (k : A -> M B) self tr r self' tr' :
  m self tr = (r, self', tr') ->
  mbind m k self tr =
    match r with
    | Ok a => k a self' tr'
    | Raise e => (Raise e, self', tr')
    end.
Proof. unfold mbind. intros ->. now destruct r. Qed.

(** ** The memory pre-check *)

Lemma set_hw_capabilities_same self :
  set_hw_capabilities (hw_capabilities self) self = self.
Proof. now destruct self. Qed.

Lemma emit_all_spec events self tr :
  emit_all events self tr = (Ok tt, self, tr ++ events).
Proof.
  revert tr. induction events as [|e events IH]; intros tr; cbn.
  - now rewrite app_nil_r.
  - unfold mbind, emit. rewrite IH, <- app_assoc. reflexivity.
Qed.

Lemma memory_check_no_script w self tr :
  path_exists (fs w) (memory_checker w) = false ->
  check_and_fix_memory_saturation w self tr = (Ok tt, self, tr).
Proof.
  intros H. unfold check_and_fix_memory_saturation, try_except.
  fold (memory_checker w). rewrite H. reflexivity.
Qed.

Lemma memory_check_exit w self tr code :
  path_exists (fs w) (memory_checker w) = true ->
  memory_fix w = Ok code ->
  check_and_fix_memory_saturation w self tr =
    (Ok tt, self,
     tr ++ subprocess_run ["sudo"; "python3"; memory_checker w]
        :: (if code =? 0 then [sleep 2] else [])).
Proof.
  intros H E. unfold check_and_fix_memory_saturation, try_except.
  fold (memory_checker w). rewrite H. unfold mbind, emit, lift. rewrite E.
  destruct (code =? 0); cbn; [rewrite <- app_assoc|]; reflexivity.
Qed.

Lemma memory_check_raise w self tr e :
  path_exists (fs w) (memory_checker w) = true ->
  memory_fix w = Raise e ->
  check_and_fix_memory_saturation w self tr =
    (if isinstance e Exception then Ok tt else Raise e, self,
     tr ++ [subprocess_run ["sudo"; "python3"; memory_checker w]]).
Proof.
  intros H E. unfold check_and_fix_memory_saturation, try_except.
  fold (memory_checker w). rewrite H. unfold mbind, emit, lift. rewrite E. cbn.
  destruct (isinstance e Exception); reflexivity.
Qed.

(** Whatever happens, the pre-check leaves the wizard as it was, adds only
    subprocess events, and lets through only what is not an [Exception]. *)
Lemma memory_check_frame w self tr :
  exists r added,
    check_and_fix_memory_saturation w self tr = (r, self, tr ++ added) /\
    (forall ev, In ev added -> process_event ev) /\
    (r = Ok tt \/ exists e, r = Raise e /\ isinstance e Exception = false).
Proof.
  destruct (path_exists (fs w) (memory_checker w)) eqn:H.
  - destruct (memory_fix w) as [code|e] eqn:E.
    + rewrite (memory_check_exit w self tr code H E).
      do 2 eexists. split; [reflexivity|]. split; [|now left].
      intros ev [<-|Hev]; [exact I|].
      destruct (code =? 0); [destruct Hev as [<-|[]]; exact I|contradiction].
    + rewrite (memory_check_raise w self tr e H E).
      do 2 eexists. split; [reflexivity|]. split.
      * intros ev [<-|[]]. exact I.
      * destruct (isinstance e Exception) eqn:C; [now left|right; eauto].
  - rewrite (memory_check_no_script w self tr H).
    exists (Ok tt), []. rewrite app_nil_r. split; [reflexivity|].
    split; [intros ev []|now left].
Qed.




(** ** Hardware detection *)

Lemma load_first_capabilities_spec w json_files self tr :
  load_first_capabilities w json_files self tr =
    match first_existing w json_files with
    | None => (Ok tt, self, tr)
    | Some (Ok caps) => (Ok tt, set_hw_capabilities caps self, tr)
    | Some (Raise e) => (Raise e, self, tr)
    end.
Proof.
  induction json_files as [|f rest IH]; cbn; [reflexivity|].
  destruct (capabilities_file w f) as [[caps|e]|]; [reflexivity|reflexivity|exact IH].
Qed.

Lemma hardware_no_script w self tr :
  path_exists (fs w) (detect_script w) = false ->
  run_hardware_detection w self tr =
    (Ok tt, set_hw_capabilities (PDict []) self,
     tr ++ [show_warning
              ("Hardware detection script not found at " ++ detect_script w)%string]).
Proof.
  intros H. unfold run_hardware_detection. fold (detect_script w). rewrite H.
  reflexivity.
Qed.

Lemma hardware_probe_raises w self tr e :
  path_exists (fs w) (detect_script w) = true ->
  probe w = Raise e ->
  run_hardware_detection w self tr =
    if isinstance e Exception
    then (Ok tt, set_hw_capabilities (PDict []) self,
          tr ++ [probe_started w; probe_warning e])
    else (Raise e, self, tr ++ [probe_started w]).
Proof.
  intros H E. unfold run_hardware_detection. fold (detect_script w). rewrite H.
  unfold try_except, mbind, emit, lift, set_self. rewrite E. cbn.
  destruct (isinstance e Exception); [rewrite <- app_assoc|]; reflexivity.
Qed.

Lemma hardware_probe_exits w self tr code :
  path_exists (fs w) (detect_script w) = true ->
  probe w = Ok code ->
  run_hardware_detection w self tr =
    match first_existing w (capabilities_paths w) with
    | None => (Ok tt, self, tr ++ [probe_started w])
    | Some (Ok caps) =>
        (Ok tt, set_hw_capabilities caps self, tr ++ [probe_started w])
    | Some (Raise e) =>
        if isinstance e Exception
        then (Ok tt, set_hw_capabilities (PDict []) self,
              tr ++ [probe_started w; probe_warning e])
        else (Raise e, self, tr ++ [probe_started w])
    end.
Proof.
  intros H E. unfold run_hardware_detection. fold (detect_script w). rewrite H.
  cbn [negb]. unfold try_except. rewrite bind_emit, bind_lift, E.
  rewrite load_first_capabilities_spec.
  destruct (first_existing w (capabilities_paths w)) as [[caps|e]|];
    [reflexivity| |reflexivity].
  cbn [find_clause].
  destruct (isinstance e Exception); [|reflexivity].
  rewrite bind_emit. unfold set_self. rewrite <- app_assoc. reflexivity.
Qed.

(** Whatever happens, hardware detection changes only [hw_capabilities],
    adds only a subprocess event and warnings, and lets through only what
    is not an [Exception]. *)
Lemma hardware_frame w self tr :
  exists r caps added,
    run_hardware_detection w self tr =
      (r, set_hw_capabilities caps self, tr ++ added) /\
    (forall ev, In ev added -> probe_event ev) /\
    (r = Ok tt \/ exists e, r = Raise e /\ isinstance e Exception = false).
Proof.
  assert (Hone : forall a, forall ev, In ev [a] -> probe_event a -> probe_event ev).
  { intros a ev [<-|[]] Ha. exact Ha. }
  assert (Htwo : forall a b, forall ev, In ev [a; b] ->
                   probe_event a -> probe_event b -> probe_event ev).
  { intros a b ev [<-|[<-|[]]] Ha Hb; assumption. }
  destruct (path_exists (fs w) (detect_script w)) eqn:H.
  - destruct (probe w) as [code|e] eqn:E.
    + rewrite (hardware_probe_exits w self tr code H E).
      destruct (first_existing w (capabilities_paths w)) as [[caps|e]|].
      * exists (Ok tt), caps, [probe_started w]. split; [reflexivity|].
        split; [|now left]. intros ev Hev. now apply (Hone _ _ Hev).
      * destruct (isinstance e Exception) eqn:C.
        -- exists (Ok tt), (PDict []), [probe_started w; probe_warning e].
           split; [reflexivity|]. split; [|now left].
           intros ev Hev. now apply (Htwo _ _ _ Hev).
        -- exists (Raise e), (hw_capabilities self), [probe_started w].
           rewrite set_hw_capabilities_same. split; [reflexivity|].
           split; [|right; eauto]. intros ev Hev. now apply (Hone _ _ Hev).
      * exists (Ok tt), (hw_capabilities self), [probe_started w].
        rewrite set_hw_capabilities_same. split; [reflexivity|].
        split; [|now left]. intros ev Hev. now apply (Hone _ _ Hev).
    + rewrite (hardware_probe_raises w self tr e H E).
      destruct (isinstance e Exception) eqn:C.
      * exists (Ok tt), (PDict []), [probe_started w; probe_warning e].
        split; [reflexivity|]. split; [|now left].
        intros ev Hev. now apply (Htwo _ _ _ Hev).
      * exists (Raise e), (hw_capabilities self), [probe_started w].
        rewrite set_hw_capabilities_same. split; [reflexivity|].
        split; [|right; eauto]. intros ev Hev. now apply (Hone _ _ Hev).
  - rewrite (hardware_no_script w self tr H).
    do 3 eexists. split; [reflexivity|]. split; [|now left].
    intros ev Hev. now apply (Hone _ _ Hev).
Qed.

(** ** Following the main flow *)

Lemma run_of_body w self tr :
  run w self tr =
    match run_body w self tr with
    | (Ok a, s, t) => (Ok a, s, t)
    | (Raise e, s, t) =>
        if isinstance e KeyboardInterrupt then
          (Ok 1, s,
           t ++ [console_print;
                 show_warning "Installation cancelled by user (Ctrl+C)"])
        else if isinstance e Exception then
          (Ok 1, s,
           t ++ [console_print;
                 show_error ("An error occurred: " ++ exc_str e)%string;
                 print_exc e])
        else (Raise e, s, t)
    end.
Proof.
  unfold run, try_except.
  destruct (run_body w self tr) as [[[a|e] s] t]; [reflexivity|].
  cbn [find_clause].
  destruct (isinstance e KeyboardInterrupt).
  - rewrite !bind_emit. unfold ret. rewrite <- app_assoc. reflexivity.
  - destruct (isinstance e Exception); [|reflexivity].
    rewrite !bind_emit. unfold ret. rewrite <- !app_assoc. reflexivity.
Qed.

Lemma triple_eq {A B C} (a a' : A) (b b' : B) (c c' : C) :
  (a, b, c) = (a', b', c') -> a = a' /\ b = b' /\ c = c'.
Proof. intros H. injection H. auto. Qed.

Lemma json_dump_eq p c p' c' :
  json_dump p c = json_dump p' c' -> p = p' /\ c = c'.
Proof. intros H. injection H. auto. Qed.

(** The method in [H] has come to its end: name what it returned. *)
Ltac finish_run H :=
  lazymatch type of H with
  | ret _ _ _ = (_, _, _) =>
      unfold ret in H; apply triple_eq in H; destruct H as (<- & <- & <-)
  | (_, _, _) = (_, _, _) =>
      apply triple_eq in H; destruct H as (<- & <- & <-)
  end.

(** One statement of the method in [H]. *)
Ltac step_run H :=
  match type of H with
  | mbind (emit _) _ _ _ = _ => rewrite bind_emit in H
  | mbind (ret _) _ _ _ = _ => rewrite bind_ret in H
  | mbind get_self _ _ _ = _ => rewrite bind_get_self in H
  | mbind (set_self _) _ _ _ = _ => rewrite bind_set_self in H
  | mbind (emit_all ?l) _ ?s ?t = _ =>
      rewrite (bind_result _ _ _ _ _ _ _ (emit_all_spec l s t)) in H
  | mbind (lift ?r) _ _ _ = _ =>
      rewrite bind_lift in H;
      let E := fresh "E" in destruct r eqn:E
  | mbind (check_and_fix_memory_saturation ?w) _ ?s ?t = _ =>
      let r := fresh "r" in let added := fresh "added" in
      let E := fresh "Ememory" in let Hadded := fresh "Hmemory" in
      let Hr := fresh "Hr" in let e := fresh "e" in
      destruct (memory_check_frame w s t) as (r & added & E & Hadded & Hr);
      rewrite (bind_result _ _ _ _ _ _ _ E) in H;
      destruct Hr as [->|(e & -> & Hr)]
  | mbind (run_hardware_detection ?w) _ ?s ?t = _ =>
      let r := fresh "r" in let caps := fresh "caps" in
      let added := fresh "added" in
      let E := fresh "Ehardware" in let Hadded := fresh "Hhardware" in
      let Hr := fresh "Hr" in let e := fresh "e" in
      destruct (hardware_frame w s t) as (r & caps & added & E & Hadded & Hr);
      rewrite (bind_result _ _ _ _ _ _ _ E) in H;
      destruct Hr as [->|(e & -> & Hr)]
  | mbind (if ?c then _ else _) _ _ _ = _ =>
      let E := fresh "E" in destruct c eqn:E
  | (if ?c then _ else _) _ _ = _ =>
      let E := fresh "E" in destruct c eqn:E
  | (let '(_, _) := ?x in _) _ _ = _ =>
      let E := fresh "E" in destruct x eqn:E
  end.

(** Where in the trace is the event of [H]?  The places where it cannot
    be are closed. *)
Ltac case_event H :=
  lazymatch type of H with
  | False => contradiction
  | _ \/ _ => destruct H as [H|H]; case_event H
  | In _ (_ ++ _) => apply in_app_or in H; destruct H as [H|H]; case_event H
  | In _ (_ :: _) => destruct H as [H|H]; case_event H
  | In _ [] => contradiction
  | In _ (map _ _) =>
      apply in_map_iff in H; destruct H as (? & H & _); discriminate H
  | In _ ?added =>
      match goal with
      | F : forall ev, In ev added -> _ |- _ => apply F in H; contradiction
      end
  | _ = _ => first [discriminate H | idtac]
  end.

(** A configuration is written only at the end of a run that went
    through every step. *)
Lemma run_body_export w rb sb tb p cfg :
  run_body w init [] = (rb, sb, tb) ->
  In (json_dump p cfg) tb ->
  rb = Ok 0 /\ p = config_file /\ cfg = run_config w sb /\
  confirm_start w = Ok true /\ confirm_final w = Ok true /\
  (exists position, mode_pick w = Ok position /\
     optimization_mode sb =
       nth position ["optimized"; "vanilla"]%string "vanilla"%string) /\
  (exists s0 t0 s1 t1, hw_capabilities s0 = PDict [] /\
     run_hardware_detection w s0 t0 = (Ok tt, s1, t1) /\
     hw_capabilities sb = hw_capabilities s1).
Proof.
  intros H Hin. unfold run_body in H.
  do 60 (try step_run H).
  all: finish_run H.
  all: try (exfalso; case_event Hin; fail).
  all: case_event Hin.
  all: apply json_dump_eq in Hin; destruct Hin as [<- <-].
  all: destruct a; [|discriminate E0]; destruct a6; [|discriminate E12].
  all: repeat (split; [first [reflexivity|assumption]|]).
  all: split; [exists a5; split; [first [reflexivity|assumption]|reflexivity]|].
  all: do 4 eexists; split; [|split; [exact Ehardware|reflexivity]]; reflexivity.
Qed.

Lemma main_export w r self' tr' p cfg :
  main w = (r, self', tr') ->
  In (json_dump p cfg) tr' ->
  r = Ok 0 /\ p = config_file /\ cfg = run_config w self' /\
  confirm_start w = Ok true /\ confirm_final w = Ok true /\
  (exists position, mode_pick w = Ok position /\
     optimization_mode self' =
       nth position ["optimized"; "vanilla"]%string "vanilla"%string) /\
  (exists s0 t0 s1 t1, hw_capabilities s0 = PDict [] /\
     run_hardware_detection w s0 t0 = (Ok tt, s1, t1) /\
     hw_capabilities self' = hw_capabilities s1).
Proof.
  unfold main. intros H Hin. destruct (negb (euid w =? 0)).
  { finish_run H. exfalso. case_event Hin. }
  rewrite run_of_body in H.
  destruct (run_body w init []) as [[rb sb] tb] eqn:Hbody.
  destruct rb as [a|e].
  - finish_run H. exact (run_body_export w _ _ _ _ _ Hbody Hin).
  - exfalso.
    assert (Hno : ~ In (json_dump p cfg) tb).
    { intros Hin'. destruct (run_body_export w _ _ _ _ _ Hbody Hin') as [Hr _].
      discriminate Hr. }
    destruct (isinstance e KeyboardInterrupt);
      [|destruct (isinstance e Exception)]; finish_run H;
      try (apply in_app_or in Hin; destruct Hin as [Hin|Hin]);
      try (exact (Hno Hin)); case_event Hin.
Qed.

(** ** Properties of the exported configuration *)

Lemma main_export_trace w p cfg :
  In (json_dump p cfg) (trace_of (main w)) ->
  exists r self', main w = (r, self', trace_of (main w)) /\
    r = Ok 0 /\ p = config_file /\ cfg = run_config w self' /\
    confirm_start w = Ok true /\ confirm_final w = Ok true /\
    (exists position, mode_pick w = Ok position /\
       optimization_mode self' =
         nth position ["optimized"; "vanilla"]%string "vanilla"%string) /\
    (exists s0 t0 s1 t1, hw_capabilities s0 = PDict [] /\
       run_hardware_detection w s0 t0 = (Ok tt, s1, t1) /\
       hw_capabilities self' = hw_capabilities s1).
Proof.
  destruct (main w) as [[r self'] tr'] eqn:Hmain. cbn [trace_of snd]. intros Hin.
  exists r, self'. split; [reflexivity|].
  exact (main_export w _ _ _ _ _ Hmain Hin).
Qed.

(** How to find an event in a trace that has been computed. *)
Ltac find_event := vm_compute; repeat (first [left; reflexivity | right]).

(** C5.  Whenever the wizard writes its configuration, the mode in it is
    ["optimized"] or ["vanilla"], and [auto_configure_iommu] is the
    boolean that is true exactly when the mode is ["optimized"]. *)
Theorem auto_configure_iommu_iff_optimized w p cfg :
  In (json_dump p cfg) (trace_of (main w)) ->
  exists mode b,
    config_get "optimization_mode" cfg = Some (PStr mode) /\
    config_get "auto_configure_iommu" cfg = Some (PBool b) /\
    (mode = "optimized"%string \/ mode = "vanilla"%string) /\
    (b = true <-> mode = "optimized"%string).
Proof.
  intros Hin.
  destruct (main_export_trace w _ _ Hin)
    as (r & self' & _ & _ & _ & -> & _ & _ & (position & _ & Hmode) & _).
  exists (optimization_mode self'), (String.eqb (optimization_mode self') "optimized").
  split; [reflexivity|]. split; [reflexivity|]. split.
  - rewrite Hmode. destruct position as [|[|position]]; cbn; auto.
    destruct position; auto.
  - apply String.eqb_eq.
Qed.

Lemma auto_configure_iommu_iff_optimized_witness :
  In (json_dump config_file example_config) (trace_of (main example_world)) /\
  config_get "optimization_mode" example_config = Some (PStr "vanilla") /\
  config_get "auto_configure_iommu" example_config = Some (PBool false) /\
  exists mode b,
    config_get "optimization_mode" example_config = Some (PStr mode) /\
    config_get "auto_configure_iommu" example_config = Some (PBool b) /\
    (mode = "optimized"%string \/ mode = "vanilla"%string) /\
    (b = true <-> mode = "optimized"%string).
Proof.
  assert (Hin : In (json_dump config_file example_config)
                  (trace_of (main example_world))) by find_event.
  split; [exact Hin|]. split; [reflexivity|]. split; [reflexivity|].
  exact (auto_configure_iommu_iff_optimized example_world config_file
           example_config Hin).
Defined.

(** C10.  The program has two export routines for the same path.  The
    [export_configuration] method writes a configuration whose keys end
    with [offer_system_tuning], always true, and have no
    [auto_configure_iommu] (and raises what the write raises, when it
    does); the configuration [run] writes has [auto_configure_iommu] and
    no [offer_system_tuning].  Whatever the wizard flow writes is of the
    second kind, at that path, and is never what [export_configuration]
    writes. *)
Theorem two_exports_differ w :
  (forall self tr, exists config,
     export_configuration w self tr =
       match config_write w with
       | Ok _ =>
           (Ok tt, self,
            tr ++ [json_dump config_file config;
                   show_success "Configuration saved successfully"])
       | Raise e => (Raise e, self, tr)
       end /\
     config_keys config =
       ["selected_kernels"; "optimization_mode"; "hw_capabilities";
        "timestamp"; "offer_system_tuning"]%string /\
     config_get "offer_system_tuning" config = Some (PBool true) /\
     config_get "auto_configure_iommu" config = None) /\
  (forall p cfg, In (json_dump p cfg) (trace_of (main w)) ->
     p = config_file /\
     config_keys cfg =
       ["selected_kernels"; "optimization_mode"; "hw_capabilities";
        "timestamp"; "auto_configure_iommu"]%string /\
     config_get "offer_system_tuning" cfg = None /\
     (exists b, config_get "auto_configure_iommu" cfg = Some (PBool b)) /\
     forall w' self,
       ~ In (json_dump p cfg) (trace_of (export_configuration w' self []))).
Proof.
  split.
  - intros self tr. eexists. split; [|split; [|split]].
    + unfold export_configuration. rewrite bind_get_self, bind_lift.
      destruct (config_write w); [|reflexivity].
      rewrite bind_emit. unfold emit. rewrite <- app_assoc. reflexivity.
    + reflexivity.
    + reflexivity.
    + reflexivity.
  - intros p cfg Hin.
    destruct (main_export_trace w _ _ Hin)
      as (r & self' & _ & _ & -> & -> & _).
    split; [reflexivity|]. split; [reflexivity|]. split; [reflexivity|].
    split; [eexists; reflexivity|].
    intros w' self H.
    unfold export_configuration, trace_of in H.
    rewrite bind_get_self, bind_lift in H.
    destruct (config_write w'); [|contradiction].
    rewrite bind_emit in H. unfold emit in H. cbn [snd app] in H.
    destruct H as [H|[H|[]]]; [|discriminate H].
    apply json_dump_eq in H. destruct H as [_ H]. unfold run_config in H.
    discriminate H.
Qed.

Lemma two_exports_differ_witness :
  In (json_dump config_file example_config) (trace_of (main example_world)) /\
  config_keys example_config =
    ["selected_kernels"; "optimization_mode"; "hw_capabilities";
     "timestamp"; "auto_configure_iommu"]%string /\
  config_get "offer_system_tuning" example_config = None /\
  ~ In (json_dump config_file example_config)
      (trace_of (export_configuration example_world init [])).
Proof.
  assert (Hin : In (json_dump config_file example_config)
                  (trace_of (main example_world))) by find_event.
  destruct (proj2 (two_exports_differ example_world) config_file example_config Hin)
    as (_ & Hkeys & Hnone & _ & Hnever).
  split; [exact Hin|]. split; [exact Hkeys|]. split; [exact Hnone|].
  exact (Hnever example_world init).
Defined.

(** ** Hardware capabilities in the exported configuration *)

(** Hardware detection returns as long as what the probe and the
    capability file raise are instances of [Exception]. *)
Lemma hardware_detection_returns w self tr :
  (forall e, probe w = Raise e -> isinstance e Exception = true) ->
  (forall e, first_existing w (capabilities_paths w) = Some (Raise e) ->
             isinstance e Exception = true) ->
  exists self' tr', run_hardware_detection w self tr = (Ok tt, self', tr').
Proof.
  intros Hprobe Hfile. destruct (path_exists (fs w) (detect_script w)) eqn:H.
  - destruct (probe w) as [code|e] eqn:E.
    + rewrite (hardware_probe_exits w self tr code H E).
      destruct (first_existing w (capabilities_paths w)) as [[caps|e]|];
        [eauto| |eauto].
      rewrite (Hfile e eq_refl). eauto.
    + rewrite (hardware_probe_raises w self tr e H E), (Hprobe e eq_refl). eauto.
  - rewrite (hardware_no_script w self tr H). eauto.
Qed.

(** C3, as the code has it.  In the configuration the wizard writes,
    [hw_capabilities] is empty when the probe script is missing and when
    the probe's invocation raises (a timeout past its 30 seconds
    included); when the probe exits, with status zero or not, it is what
    the first existing capability file holds, and empty when there is no
    such file or the file cannot be loaded.  No [Exception] escapes the
    hardware detection step. *)
Theorem hw_capabilities_after_probe w :
  (forall p cfg, In (json_dump p cfg) (trace_of (main w)) ->
     exists caps, config_get "hw_capabilities" cfg = Some caps /\
       (path_exists (fs w) (detect_script w) = false -> caps = PDict []) /\
       (path_exists (fs w) (detect_script w) = true ->
        (forall e, probe w = Raise e -> caps = PDict []) /\
        (forall code, probe w = Ok code ->
           caps = match first_existing w (capabilities_paths w) with
                  | Some (Ok loaded) => loaded
                  | _ => PDict []
                  end))) /\
  (forall self tr,
     (forall e, probe w = Raise e -> isinstance e Exception = true) ->
     (forall e, first_existing w (capabilities_paths w) = Some (Raise e) ->
                isinstance e Exception = true) ->
     exists self' tr', run_hardware_detection w self tr = (Ok tt, self', tr')).
Proof.
  split; [|intros self tr; apply hardware_detection_returns].
  intros p cfg Hin.
  destruct (main_export_trace w _ _ Hin)
    as (r & self' & _ & _ & _ & -> & _ & _ & _ & (s0 & t0 & s1 & t1 & H0 & Hrun & Hcaps)).
  exists (hw_capabilities self'). split; [reflexivity|]. rewrite Hcaps. split.
  - intros H. rewrite (hardware_no_script w s0 t0 H) in Hrun.
    apply triple_eq in Hrun. destruct Hrun as (_ & <- & _). reflexivity.
  - intros H. split.
    + intros e E. rewrite (hardware_probe_raises w s0 t0 e H E) in Hrun.
      destruct (isinstance e Exception);
        apply triple_eq in Hrun; destruct Hrun as (Hr & <- & _);
        [reflexivity|discriminate Hr].
    + intros code E. rewrite (hardware_probe_exits w s0 t0 code H E) in Hrun.
      destruct (first_existing w (capabilities_paths w)) as [[loaded|e]|].
      * apply triple_eq in Hrun. destruct Hrun as (_ & <- & _). reflexivity.
      * destruct (isinstance e Exception);
          apply triple_eq in Hrun; destruct Hrun as (Hr & <- & _);
          [reflexivity|discriminate Hr].
      * apply triple_eq in Hrun. destruct Hrun as (_ & <- & _). exact H0.
Qed.

Lemma hw_capabilities_after_probe_witness :
  (exists cfg, In (json_dump config_file cfg) (trace_of (main timeout_world)) /\
     path_exists (fs timeout_world) (detect_script timeout_world) = true /\
     probe timeout_world = Raise (mkExc TimeoutExpired "timed out after 30 seconds") /\
     config_get "hw_capabilities" cfg = Some (PDict [])) /\
  (exists self' tr',
     run_hardware_detection timeout_world init [] = (Ok tt, self', tr')).
Proof.
  split.
  - eexists. split; [find_event|]. split; [reflexivity|]. split; reflexivity.
  - apply (proj2 (hw_capabilities_after_probe timeout_world) init []).
    + intros e H. vm_compute in H. injection H as <-. reflexivity.
    + intros e H. vm_compute in H. discriminate H.
Defined.

(** C3, as stated, fails: the probe exits with status 1, a capability
    file is there, and the configuration written carries its content. *)
Lemma hw_capabilities_counterexample :
  probe failed_probe_world = Ok 1 /\
  exists cfg, In (json_dump config_file cfg) (trace_of (main failed_probe_world)) /\
              config_get "hw_capabilities" cfg = Some example_caps /\
              example_caps <> PDict [].
Proof.
  split; [reflexivity|]. eexists. split; [find_event|].
  split; [reflexivity|discriminate].
Qed.

(** ** The two terminal conditions of kernel detection *)

Lemma run_body_step_1 w rb sb tb ks :
  run_body w init [] = (rb, sb, tb) ->
  In (show_step 1 4 "Kernel Detection & Selection") tb ->
  detect_installed_kernels (fs w) (release w) = Ok ks ->
  (ks <> [] -> supported_with_headers ks = [] ->
   rb = Ok 1 /\
   (exists before,
      tb = before ++ [show_error no_supported_message;
                      show_info install_headers_message]) /\
   ~ In (show_error no_kernels_message) tb /\
   forall p cfg, ~ In (json_dump p cfg) tb) /\
  (ks = [] ->
   rb = Ok 1 /\
   (exists before, tb = before ++ [show_error no_kernels_message]) /\
   ~ In (show_error no_supported_message) tb /\
   forall p cfg, ~ In (json_dump p cfg) tb).
Proof.
  intros Hbody Hstep Hd. unfold run_body in Hbody.
  do 8 (try step_run Hbody).
  all: try (finish_run Hbody; exfalso; case_event Hstep; fail).
  all: first [discriminate Hd | injection Hd as ->].
  do 2 step_run Hbody. cbn [detected_kernels set_detected_kernels] in Hbody.
  destruct ks as [|k ks].
  - (* the inventory is empty *)
    cbn [is_empty] in Hbody. step_run Hbody. finish_run Hbody.
    split; [intros Hne; now contradiction Hne|].
    intros _. split; [reflexivity|]. split; [eexists; reflexivity|].
    split; [intros Hev|intros p cfg Hev]; case_event Hev.
  - (* the inventory is not empty *)
    split; [|discriminate].
    intros _ Hnone. rewrite Hnone in Hbody. cbn [is_empty] in Hbody.
    do 2 step_run Hbody. finish_run Hbody.
    split; [reflexivity|]. split.
    + eexists. rewrite <- app_assoc. reflexivity.
    + split; [intros Hev|intros p cfg Hev]; case_event Hev.
Qed.

(** C4.  Once the flow is at step 1: with a non-empty inventory and no
    supported kernel with headers, it ends on the "no supported kernels
    with headers" error followed by the advice to install headers,
    returns 1, never shows "no kernels detected" and writes no
    configuration; with an empty inventory it ends on "no kernels
    detected", returns 1, and writes no configuration either. *)
Theorem no_eligible_kernel_message w ks :
  In (show_step 1 4 "Kernel Detection & Selection") (trace_of (main w)) ->
  detect_installed_kernels (fs w) (release w) = Ok ks ->
  (ks <> [] -> supported_with_headers ks = [] ->
   fst (fst (main w)) = Ok 1 /\
   (exists before,
      trace_of (main w) =
        before ++ [show_error no_supported_message;
                   show_info install_headers_message]) /\
   ~ In (show_error no_kernels_message) (trace_of (main w)) /\
   forall p cfg, ~ In (json_dump p cfg) (trace_of (main w))) /\
  (ks = [] ->
   fst (fst (main w)) = Ok 1 /\
   (exists before, trace_of (main w) = before ++ [show_error no_kernels_message]) /\
   ~ In (show_error no_supported_message) (trace_of (main w)) /\
   forall p cfg, ~ In (json_dump p cfg) (trace_of (main w))).
Proof.
  unfold main. destruct (negb (euid w =? 0)).
  { intros Hstep. exfalso. cbn in Hstep. case_event Hstep. }
  rewrite run_of_body.
  destruct (run_body w init []) as [[rb sb] tb] eqn:Hbody.
  intros Hstep Hd.
  assert (Hstep' : In (show_step 1 4 "Kernel Detection & Selection") tb).
  { destruct rb as [a|e]; [exact Hstep|].
    destruct (isinstance e KeyboardInterrupt);
      [|destruct (isinstance e Exception)]; cbn [trace_of snd] in Hstep;
      try exact Hstep;
      apply in_app_or in Hstep; destruct Hstep as [Hstep|Hstep];
      try exact Hstep; case_event Hstep. }
  destruct (run_body_step_1 w rb sb tb ks Hbody Hstep' Hd) as [Hsome Hnone].
  split.
  - intros Hne Hel. destruct (Hsome Hne Hel) as (-> & Htb & Hno & Hdump).
    cbn [trace_of fst snd]. auto.
  - intros Hks. destruct (Hnone Hks) as (-> & Htb & Hno & Hdump).
    cbn [trace_of fst snd]. auto.
Qed.

Lemma no_eligible_kernel_message_witness :
  In (show_step 1 4 "Kernel Detection & Selection") (trace_of (main bare_world)) /\
  (exists ks,
     detect_installed_kernels (fs bare_world) (release bare_world) = Ok ks /\
     ks <> [] /\ supported_with_headers ks = [] /\
     fst (fst (main bare_world)) = Ok 1 /\
     (exists before,
        trace_of (main bare_world) =
          before ++ [show_error no_supported_message;
                     show_info install_headers_message]) /\
     ~ In (show_error no_kernels_message) (trace_of (main bare_world)) /\
     forall p cfg, ~ In (json_dump p cfg) (trace_of (main bare_world))).
Proof.
  assert (Hstep : In (show_step 1 4 "Kernel Detection & Selection")
                    (trace_of (main bare_world))) by find_event.
  split; [exact Hstep|].
  destruct (detect_installed_kernels (fs bare_world) (release bare_world))
    as [ks|e] eqn:Hd; [|vm_compute in Hd; discriminate Hd].
  exists ks.
  assert (Hne : ks <> []).
  { vm_compute in Hd. injection Hd as <-. discriminate. }
  assert (Hel : supported_with_headers ks = []).
  { vm_compute in Hd. injection Hd as <-. reflexivity. }
  split; [reflexivity|]. split; [exact Hne|]. split; [exact Hel|].
  exact (proj1 (no_eligible_kernel_message bare_world ks Hstep Hd) Hne Hel).
Defined.

(** ** Further properties of the inventory *)

Lemma split_parts_without sep c s :
  (Ascii.eqb sep c = true \/ has_char c s = false) ->
  forall part, In part (split sep s) -> has_char c part = false.
Proof.
  induction s as [|x s IH]; cbn; intros H part Hin.
  - destruct Hin as [<-|[]]. reflexivity.
  - assert (IH' : forall part, In part (split sep s) -> has_char c part = false).
    { apply IH. destruct H as [H|H]; [now left|right].
      apply orb_false_iff in H. tauto. }
    destruct (Ascii.eqb x sep) eqn:Ex.
    + destruct Hin as [<-|Hin]; [reflexivity|now apply IH'].
    + assert (Hx : Ascii.eqb x c = false).
      { destruct H as [H|H].
        - apply Ascii.eqb_eq in H. subst c. exact Ex.
        - apply orb_false_iff in H. tauto. }
      destruct (split sep s) as [|w ws] eqn:Es.
      * destruct Hin as [<-|[]]. cbn. now rewrite Hx.
      * destruct Hin as [<-|Hin].
        -- cbn. rewrite Hx. apply IH'. now left.
        -- apply IH'. now right.
Qed.

Lemma skip_spaces_without c s :
  has_char c s = false -> has_char c (skip_spaces s) = false.
Proof.
  induction s as [|x s IH]; cbn; intros H; [reflexivity|].
  apply orb_false_iff in H. destruct H as [Hx Hs].
  destruct (is_space x); [now apply IH|]. cbn. now rewrite Hx, Hs.
Qed.

Lemma digit_value_nonneg c d : digit_value c = Some d -> 0 <= d.
Proof.
  unfold digit_value. destruct (_ && _); intros H; inversion H. lia.
Qed.

Lemma scan_digits_nonneg s prev acc n v m rest :
  0 <= acc -> scan_digits s prev acc n = Some (v, m, rest) -> 0 <= v.
Proof.
  revert prev acc n.
  induction s as [|x s IH]; cbn [scan_digits]; intros prev acc n Hacc H.
  - destruct prev; inversion H. now subst.
  - destruct (digit_value x) as [d|] eqn:Ed.
    + eapply IH; [|exact H]. pose proof (digit_value_nonneg _ _ Ed). lia.
    + destruct (Ascii.eqb x "_"); destruct prev; try discriminate H.
      * exact (IH _ _ _ Hacc H).
      * inversion H. now subst.
Qed.

Lemma long_from_string_nonneg s n :
  has_char "-" s = false -> long_from_string s = Some n -> 0 <= n.
Proof.
  intros Hs. unfold long_from_string.
  pose proof (skip_spaces_without "-" s Hs) as Hsk.
  destruct (skip_spaces s) as [|x r] eqn:E; cbn; [discriminate|].
  assert (Hx : Ascii.eqb x "-" = false) by (cbn in Hsk; now apply orb_false_iff in Hsk).
  assert (Hgen : forall s2,
            match s2 with
            | String "_" _ => None
            | _ =>
                match scan_digits s2 false 0 0 with
                | Some (v, k, rest) =>
                    if (k =? 0)%nat then None
                    else match skip_spaces rest with
                         | EmptyString => Some (1 * v)
                         | _ => None
                         end
                | None => None
                end
            end = Some n -> 0 <= n).
  { intros s2 H.
    assert (Hscan : forall v k rest, scan_digits s2 false 0 0 = Some (v, k, rest) ->
                      (if (k =? 0)%nat then None
                       else match skip_spaces rest with
                            | EmptyString => Some (1 * v)
                            | _ => None
                            end) = Some n -> 0 <= n).
    { intros v k rest Hv Hn. pose proof (scan_digits_nonneg _ _ _ _ _ _ _ (Z.le_refl 0) Hv).
      destruct (k =? 0)%nat; [discriminate|].
      destruct (skip_spaces rest); [|discriminate Hn].
      assert (n = 1 * v) by congruence. lia. }
    destruct s2 as [|y s2'].
    - destruct (scan_digits "" false 0 0) as [[[v k] rest]|] eqn:Ev; [|discriminate].
      exact (Hscan _ _ _ eq_refl H).
    - destruct (Ascii.eqb y "_") eqn:Ey.
      + apply Ascii.eqb_eq in Ey. subst y. discriminate H.
      + assert (H' : match scan_digits (String y s2') false 0 0 with
                     | Some (v, k, rest) =>
                         if (k =? 0)%nat then None
                         else match skip_spaces rest with
                              | EmptyString => Some (1 * v)
                              | _ => None
                              end
                     | None => None
                     end = Some n).
        { revert H. clear - Ey.
          destruct y as [[] [] [] [] [] [] [] []]; try discriminate Ey; trivial. }
        destruct (scan_digits (String y s2') false 0 0) as [[[v k] rest]|] eqn:Ev;
          [|discriminate].
        exact (Hscan _ _ _ eq_refl H'). }
  destruct (Ascii.eqb x "+") eqn:Ep.
  - apply Ascii.eqb_eq in Ep. subst x. exact (Hgen r).
  - intros H. apply (Hgen (String x r)).
    revert H. clear - Ep Hx.
    destruct x as [[] [] [] [] [] [] [] []]; try discriminate Ep; try discriminate Hx;
      trivial.
Qed.

(** *** Decoding keeps the ASCII characters apart *)

Ltac bounds H :=
  repeat rewrite ?andb_true_iff, ?orb_true_iff, ?N.leb_le, ?N.eqb_eq in H.

Lemma two_byte_code_point b0 b1 :
  two_byte b0 b1 = true -> (128 <= code_point2 b0 b1)%N.
Proof. unfold two_byte, continuation, code_point2. intros H. bounds H. lia. Qed.

Lemma three_byte_code_point b0 b1 b2 :
  three_byte b0 b1 b2 = true -> (128 <= code_point3 b0 b1 b2)%N.
Proof. unfold three_byte, continuation, code_point3. intros H. bounds H. lia. Qed.

Lemma four_byte_code_point b0 b1 b2 b3 :
  four_byte b0 b1 b2 b3 = true -> (128 <= code_point4 b0 b1 b2 b3)%N.
Proof. unfold four_byte, continuation, code_point4. intros H. bounds H. lia. Qed.

Lemma has_char_tail c a s : has_char c s = true -> has_char c (String a s) = true.
Proof. intros H. cbn [has_char]. rewrite H. apply orb_true_r. Qed.

(** A code point below 128 of the decoded text is a byte of the text. *)
Lemma utf8_decode_ascii n : forall s c,
  (String.length s <= n)%nat -> In c (utf8_decode s) -> (c < 128)%N ->
  has_char (ascii_of_N c) s = true.
Proof.
  induction n as [|n IH]; intros s c Hlen Hin Hc.
  - destruct s; [contradiction|cbn in Hlen; lia].
  - destruct s as [|a0 rest]; [contradiction|].
    cbn [utf8_decode] in Hin. cbn [String.length] in Hlen.
    destruct (N_of_ascii a0 <? 128)%N eqn:E0.
    + destruct Hin as [<-|Hin].
      * rewrite ascii_N_embedding. cbn [has_char]. now rewrite Ascii.eqb_refl.
      * apply has_char_tail, IH; [lia|assumption..].
    + apply N.ltb_ge in E0.
      assert (Hrest : In c (utf8_decode rest) -> has_char (ascii_of_N c) (String a0 rest) = true).
      { intros H. apply has_char_tail, IH; [lia|assumption..]. }
      assert (Hesc : In c (surrogate_escape (N_of_ascii a0) :: utf8_decode rest) ->
                     has_char (ascii_of_N c) (String a0 rest) = true).
      { intros [H|H]; [unfold surrogate_escape in H; lia|exact (Hrest H)]. }
      destruct rest as [|a1 rest1]; [exact (Hesc Hin)|].
      cbn [String.length] in Hlen.
      destruct (two_byte _ _) eqn:E2.
      { destruct Hin as [H|H]; [apply two_byte_code_point in E2; lia|].
        do 2 apply has_char_tail. apply IH; [lia|assumption..]. }
      destruct rest1 as [|a2 rest2]; [exact (Hesc Hin)|].
      cbn [String.length] in Hlen.
      destruct (three_byte _ _ _) eqn:E3.
      { destruct Hin as [H|H]; [apply three_byte_code_point in E3; lia|].
        do 3 apply has_char_tail. apply IH; [lia|assumption..]. }
      destruct rest2 as [|a3 rest3]; [exact (Hesc Hin)|].
      cbn [String.length] in Hlen.
      destruct (four_byte _ _ _ _) eqn:E4; [|exact (Hesc Hin)].
      destruct Hin as [H|H]; [apply four_byte_code_point in E4; lia|].
      do 4 apply has_char_tail. apply IH; [lia|assumption..].
Qed.

Lemma unicode_decimal_digit ch d : unicode_decimal ch = Some d -> (d < 10)%N.
Proof.
  unfold unicode_decimal.
  destruct (find _ decimal_zeros) as [zero|] eqn:E; [|discriminate].
  intros H. inversion H; subst d. apply find_some in E. destruct E as [_ E].
  bounds E. rewrite N.ltb_lt in E. lia.
Qed.

Lemma ascii_of_N_inj a b :
  (a < 256)%N -> (b < 256)%N -> ascii_of_N a = ascii_of_N b -> a = b.
Proof.
  intros Ha Hb H. rewrite <- (N_ascii_embedding a Ha), <- (N_ascii_embedding b Hb).
  now rewrite H.
Qed.

(** What [int] reads holds a minus sign only where the text has one. *)
Lemma transform_without_minus chars :
  ~ In 45%N chars -> has_char "-" (transform_decimal_and_space chars) = false.
Proof.
  induction chars as [|ch chars IH]; intros Hno; [reflexivity|].
  assert (Hch : ch <> 45%N) by (intros ->; apply Hno; now left).
  assert (Hrest : has_char "-" (transform_decimal_and_space chars) = false)
    by (apply IH; intros H; apply Hno; now right).
  cbn [transform_decimal_and_space].
  destruct (ch <? 127)%N eqn:E.
  - apply N.ltb_lt in E. cbn [has_char]. rewrite Hrest, orb_false_r.
    apply Ascii.eqb_neq. intros H. apply Hch.
    apply ascii_of_N_inj; [lia|lia|exact H].
  - destruct (unicode_isspace ch); [cbn [has_char]; now rewrite Hrest|].
    destruct (unicode_decimal ch) as [d|] eqn:Ed; [|reflexivity].
    apply unicode_decimal_digit in Ed. cbn [has_char]. rewrite Hrest, orb_false_r.
    apply Ascii.eqb_neq. intros H.
    apply (ascii_of_N_inj (48 + d) 45) in H; lia.
Qed.

Lemma utf8_decode_without_minus s :
  has_char "-" s = false -> ~ In 45%N (utf8_decode s).
Proof.
  intros Hs Hin.
  pose proof (utf8_decode_ascii (String.length s) s 45%N (Nat.le_refl _) Hin eq_refl) as H.
  change (ascii_of_N 45) with "-"%char in H. congruence.
Qed.

(** A literal without a minus sign is not read as a negative number. *)
Lemma int_nonneg s n : has_char "-" s = false -> int s = Ok n -> 0 <= n.
Proof.
  intros Hs. unfold int.
  destruct (long_from_string _) as [v|] eqn:E; [|discriminate].
  intros H. inversion H; subst v. revert E. apply long_from_string_nonneg.
  destruct (is_ascii s); [exact Hs|].
  apply transform_without_minus, utf8_decode_without_minus, Hs.
Qed.

Lemma getitem_In {A} (l : list A) i x : getitem l i = Ok x -> In x l.
Proof.
  unfold getitem. destruct (nth_error l i) eqn:E; intros H; inversion H; subst.
  exact (nth_error_In _ _ E).
Qed.

Lemma dot_parts_without_minus name part :
  In part (dot_parts name) -> has_char "-" part = false.
Proof.
  unfold dot_parts, dash_prefix. apply split_parts_without. right.
  apply (split_parts_without "-" "-" name); [now left|].
  pose proof (split_not_nil "-" name).
  destruct (split "-" name); [contradiction|now left].
Qed.

Lemma parse_version_nonneg name M m p v :
  parse_version name = Ok (M, m, p, v) -> 0 <= M /\ 0 <= m /\ 0 <= p.
Proof.
  rewrite parse_version_parts. unfold bind. intros H.
  assert (Hint : forall i s n, getitem (dot_parts name) i = Ok s -> int s = Ok n -> 0 <= n).
  { intros i s n Hs Hn. apply (int_nonneg s n); [|exact Hn].
    apply (dot_parts_without_minus name). exact (getitem_In _ _ _ Hs). }
  destruct (getitem (dot_parts name) 0) as [s0|] eqn:E0; [|discriminate H].
  destruct (int s0) as [n0|] eqn:I0; [|discriminate H].
  assert (H0 := Hint _ _ _ E0 I0).
  assert (Hopt : forall i (c : bool) n,
            (if c then match getitem (dot_parts name) i with
                       | Ok a => int a
                       | Raise e => Raise e
                       end
             else Ok 0) = Ok n -> 0 <= n).
  { intros i c n Hn. destruct c; [|inversion Hn; lia].
    destruct (getitem (dot_parts name) i) as [s|] eqn:Es; [|discriminate Hn].
    exact (Hint _ _ _ Es Hn). }
  destruct (if 1 <? len (dot_parts name) then _ else _) as [n1|] eqn:E1;
    [|discriminate H].
  destruct (if 2 <? len (dot_parts name) then _ else _) as [n2|] eqn:E2;
    [|discriminate H].
  apply Hopt in E1. apply Hopt in E2. inversion H; subst. auto.
Qed.

(** No record of the inventory has a negative version number, although
    [int] reads a minus sign: the name is cut at its first dash before
    anything is read. *)
Theorem inventory_versions_nonnegative fs release ks k :
  detect_installed_kernels fs release = Ok ks ->
  In k ks ->
  0 <= major k /\ 0 <= minor k /\ 0 <= patch k.
Proof.
  intros Hd Hk. destruct (detect_installed_kernels_In _ _ _ _ Hd Hk) as [_ Hprod].
  exact (parse_version_nonneg _ _ _ _ _ (produced_parse _ _ _ _ Hprod)).
Qed.

Lemma inventory_versions_nonnegative_witness :
  detect_installed_kernels example_fs example_release = Ok example_inventory /\
  In example_kernel example_inventory /\
  0 <= major example_kernel /\ 0 <= minor example_kernel /\ 0 <= patch example_kernel.
Proof.
  assert (Hd : detect_installed_kernels example_fs example_release = Ok example_inventory)
    by (vm_compute; reflexivity).
  assert (Hk : In example_kernel example_inventory) by (cbn; tauto).
  split; [exact Hd|]. split; [exact Hk|].
  exact (inventory_versions_nonnegative example_fs example_release
           example_inventory example_kernel Hd Hk).
Defined.

(** Every record of the inventory stands for a directory listed in the
    modules root; it is current exactly when its name is the running
    release, its version string is made of its own major and minor, and
    it is supported only with major 6. *)
Theorem inventory_record_facts fs release ks k :
  detect_installed_kernels fs release = Ok ks ->
  In k ks ->
  In (full_version k) (listdir fs modules_dir) /\
  path_is_dir fs (joinpath modules_dir (full_version k)) = true /\
  (is_current k = true <-> full_version k = release) /\
  version k = (str_of_int (major k) ++ "." ++ str_of_int (minor k))%string /\
  (supported k = true -> major k = 6 /\ 16 <= minor k <= 18).
Proof.
  intros Hd Hk. destruct (detect_installed_kernels_In _ _ _ _ Hd Hk) as [Hin Hprod].
  split; [exact Hin|]. split; [exact (produced_dir _ _ _ _ Hprod)|]. split.
  - rewrite (produced_current _ _ _ _ Hprod). apply String.eqb_eq.
  - split.
    + exact (parse_version_version _ _ _ _ _ (produced_parse _ _ _ _ Hprod)).
    + rewrite (produced_supported _ _ _ _ Hprod). intros H.
      apply supported_spec in H. destruct H as [HM Hm]. split; [exact HM|].
      cbn in Hm. lia.
Qed.

Lemma inventory_record_facts_witness :
  detect_installed_kernels example_fs example_release = Ok example_inventory /\
  In example_kernel example_inventory /\
  In (full_version example_kernel) (listdir example_fs modules_dir) /\
  path_is_dir example_fs (joinpath modules_dir (full_version example_kernel)) = true /\
  (is_current example_kernel = true <-> full_version example_kernel = example_release) /\
  version example_kernel =
    (str_of_int (major example_kernel) ++ "." ++ str_of_int (minor example_kernel))%string /\
  (supported example_kernel = true ->
   major example_kernel = 6 /\ 16 <= minor example_kernel <= 18).
Proof.
  assert (Hd : detect_installed_kernels example_fs example_release = Ok example_inventory)
    by (vm_compute; reflexivity).
  assert (Hk : In example_kernel example_inventory) by (cbn; tauto).
  split; [exact Hd|]. split; [exact Hk|].
  exact (inventory_record_facts example_fs example_release
           example_inventory example_kernel Hd Hk).
Defined.

Lemma Subseq_In {A} (l1 l2 : list A) x : Subseq l1 l2 -> In x l1 -> In x l2.
Proof.
  induction 1 as [|y l1 l2 _ IH|y l1 l2 _ IH]; cbn; intros H.
  - contradiction.
  - right. now apply IH.
  - destruct H as [->|H]; [now left|right; now apply IH].
Qed.

Lemma Subseq_NoDup {A} (l1 l2 : list A) : Subseq l1 l2 -> NoDup l2 -> NoDup l1.
Proof.
  induction 1 as [|y l1 l2 Hs IH|y l1 l2 Hs IH]; intros Hnd.
  - constructor.
  - inversion Hnd; subst. now apply IH.
  - inversion Hnd as [|? ? Hnotin Hnd']; subst. constructor; [|now apply IH].
    intros Hin. apply Hnotin. exact (Subseq_In _ _ _ Hs Hin).
Qed.

Lemma Subseq_length {A} (l1 l2 : list A) :
  Subseq l1 l2 -> (List.length l1 <= List.length l2)%nat.
Proof. induction 1; cbn; lia. Qed.

(** With distinct names in the modules root, no two records of the
    inventory have the same name, and the inventory has at most as many
    records as the root has entries. *)
Theorem inventory_names_distinct fs release ks :
  NoDup (listdir fs modules_dir) ->
  detect_installed_kernels fs release = Ok ks ->
  NoDup (map full_version ks) /\
  (List.length ks <= List.length (listdir fs modules_dir))%nat.
Proof.
  intros Hnd Hd.
  assert (Hsub : Subseq (map full_version ks) (sorted (listdir fs modules_dir))).
  { destruct (stat fs modules_dir) as [[|]|] eqn:Hs.
    - unfold detect_installed_kernels, path_exists, iterdir in Hd.
      rewrite Hs in Hd. discriminate Hd.
    - rewrite (detect_installed_kernels_dir _ _ Hs) in Hd. inversion Hd.
      apply inventory_names_Subseq.
    - rewrite (detect_installed_kernels_missing _ _ Hs) in Hd. inversion Hd.
      apply Subseq_nil_l. }
  split.
  - apply (Subseq_NoDup _ _ Hsub).
    eapply Permutation_NoDup; [apply Permutation_sym, sorted_perm|exact Hnd].
  - apply Subseq_length in Hsub. rewrite length_map in Hsub.
    rewrite (Permutation_length (sorted_perm (listdir fs modules_dir))) in Hsub.
    exact Hsub.
Qed.

Lemma inventory_names_distinct_witness :
  NoDup (listdir example_fs modules_dir) /\
  detect_installed_kernels example_fs example_release = Ok example_inventory /\
  NoDup (map full_version example_inventory) /\
  (List.length example_inventory <= List.length (listdir example_fs modules_dir))%nat.
Proof.
  assert (H1 : NoDup (listdir example_fs modules_dir)).
  { cbn. repeat constructor; cbn; intuition discriminate. }
  assert (Hd : detect_installed_kernels example_fs example_release = Ok example_inventory)
    by (vm_compute; reflexivity).
  split; [exact H1|]. split; [exact Hd|].
  exact (inventory_names_distinct example_fs example_release example_inventory H1 Hd).
Defined.

(** ** Reading back what [str] writes *)

Lemma scan_digits_digit c d rest prev acc n :
  digit_value c = Some d ->
  scan_digits (String c rest) prev acc n = scan_digits rest false (10 * acc + d) (S n).
Proof. intros H. cbn [scan_digits]. now rewrite H. Qed.

Lemma scan_digits_uint_acc d acc n :
  scan_digits (NilEmpty.string_of_uint d) false (Z.pos acc) n =
    Some (Z.pos (Pos.of_uint_acc d acc), (Decimal.nb_digits d + n)%nat, EmptyString).
Proof.
  revert acc n. induction d; intros acc n; cbn [NilEmpty.string_of_uint];
    [reflexivity|..];
    (erewrite scan_digits_digit by reflexivity);
    cbn [Pos.of_uint_acc Decimal.nb_digits];
    rewrite Nat.add_succ_l, <- Nat.add_succ_r;
    match goal with
    | |- scan_digits _ _ (10 * _ + ?v) _ = Some (Z.pos (Pos.of_uint_acc _ ?p), _, _) =>
        let v' := eval vm_compute in v in
        change v with v';
        replace (10 * Z.pos acc + v') with (Z.pos p) by lia
    end; apply IHd.
Qed.

Lemma scan_digits_uint d n :
  scan_digits (NilEmpty.string_of_uint d) false 0 n =
    Some (Z.of_N (Pos.of_uint d), (Decimal.nb_digits d + n)%nat, EmptyString).
Proof.
  revert n. induction d; intros n; cbn [NilEmpty.string_of_uint];
    [reflexivity|..];
    (erewrite scan_digits_digit by reflexivity);
    cbn [Pos.of_uint Decimal.nb_digits Z.of_N];
    rewrite Nat.add_succ_l, <- Nat.add_succ_r.
  - apply IHd.
  - apply (scan_digits_uint_acc d 1).
  - apply (scan_digits_uint_acc d 2).
  - apply (scan_digits_uint_acc d 3).
  - apply (scan_digits_uint_acc d 4).
  - apply (scan_digits_uint_acc d 5).
  - apply (scan_digits_uint_acc d 6).
  - apply (scan_digits_uint_acc d 7).
  - apply (scan_digits_uint_acc d 8).
  - apply (scan_digits_uint_acc d 9).
Qed.

(** An ASCII literal that starts with a digit. *)
Lemma long_of_digits c rest d :
  digit_value c = Some d ->
  long_from_string (String c rest) =
    match scan_digits (String c rest) false 0 0 with
    | Some (v, n, after) =>
        if (n =? 0)%nat then None
        else match skip_spaces after with
             | EmptyString => Some (1 * v)
             | _ => None
             end
    | None => None
    end.
Proof.
  intros H. unfold long_from_string.
  destruct c as [[] [] [] [] [] [] [] []]; try discriminate H; reflexivity.
Qed.

(** An ASCII literal made of a minus sign followed by a digit. *)
Lemma long_of_minus_digits c rest d :
  digit_value c = Some d ->
  long_from_string (String "-" (String c rest)) =
    match scan_digits (String c rest) false 0 0 with
    | Some (v, n, after) =>
        if (n =? 0)%nat then None
        else match skip_spaces after with
             | EmptyString => Some (-1 * v)
             | _ => None
             end
    | None => None
    end.
Proof.
  intros H. unfold long_from_string.
  destruct c as [[] [] [] [] [] [] [] []]; try discriminate H; reflexivity.
Qed.

Lemma string_of_uint_digits d :
  d <> Decimal.Nil ->
  exists c rest v, NilEmpty.string_of_uint d = String c rest /\ digit_value c = Some v.
Proof.
  destruct d; [contradiction|..]; intros _; cbn [NilEmpty.string_of_uint];
    do 3 eexists; split; reflexivity.
Qed.

Lemma nb_digits_pos d : d <> Decimal.Nil -> (Decimal.nb_digits d + 0 =? 0)%nat = false.
Proof. destruct d; [contradiction|..]; reflexivity. Qed.

Lemma long_string_of_uint d :
  d <> Decimal.Nil ->
  long_from_string (NilEmpty.string_of_uint d) = Some (Z.of_N (Pos.of_uint d)) /\
  long_from_string (String "-" (NilEmpty.string_of_uint d)) =
    Some (- Z.of_N (Pos.of_uint d)).
Proof.
  intros Hd. destruct (string_of_uint_digits d Hd) as (c & rest & v & Es & Hc).
  pose proof (scan_digits_uint d 0) as Hscan. rewrite Es in *.
  rewrite (long_of_digits c rest v Hc), (long_of_minus_digits c rest v Hc), Hscan.
  rewrite (nb_digits_pos d Hd). cbn [skip_spaces]. split; f_equal; lia.
Qed.

Lemma is_ascii_string_of_uint d : is_ascii (NilEmpty.string_of_uint d) = true.
Proof.
  induction d; cbn [NilEmpty.string_of_uint is_ascii]; [reflexivity|..];
    rewrite IHd; reflexivity.
Qed.

Lemma int_string_of_uint d :
  d <> Decimal.Nil ->
  int (NilEmpty.string_of_uint d) = Ok (Z.of_N (Pos.of_uint d)) /\
  int (String "-" (NilEmpty.string_of_uint d)) = Ok (- Z.of_N (Pos.of_uint d)).
Proof.
  intros Hd. destruct (long_string_of_uint d Hd) as [Hp Hm]. unfold int.
  cbn [is_ascii]. rewrite is_ascii_string_of_uint.
  change (N_of_ascii "-" <? 128)%N with true. cbn [andb].
  rewrite Hp, Hm. split; reflexivity.
Qed.

Lemma NilZero_string_of_uint d :
  d <> Decimal.Nil -> NilZero.string_of_uint d = NilEmpty.string_of_uint d.
Proof. destruct d; [contradiction|..]; reflexivity. Qed.

(** Round trip: reading the decimal text of an integer gives the integer. *)
Theorem int_str_of_int n : int (str_of_int n) = Ok n.
Proof.
  unfold str_of_int. destruct n as [|p|p]; cbn [Z.to_int].
  - reflexivity.
  - pose proof (DecimalPos.Unsigned.to_uint_nonnil p) as Hnil.
    unfold NilZero.string_of_int. rewrite (NilZero_string_of_uint _ Hnil).
    rewrite (proj1 (int_string_of_uint _ Hnil)), DecimalPos.Unsigned.of_to.
    reflexivity.
  - pose proof (DecimalPos.Unsigned.to_uint_nonnil p) as Hnil.
    unfold NilZero.string_of_int. rewrite (NilZero_string_of_uint _ Hnil).
    rewrite (proj2 (int_string_of_uint _ Hnil)), DecimalPos.Unsigned.of_to.
    reflexivity.
Qed.

Lemma has_char_append c a b :
  has_char c (a ++ b)%string = has_char c a || has_char c b.
Proof. induction a as [|x a IH]; cbn; [reflexivity|]. now rewrite IH, orb_assoc. Qed.

Lemma split_without sep s : has_char sep s = false -> split sep s = [s].
Proof.
  induction s as [|x s IH]; cbn; intros H; [reflexivity|].
  apply orb_false_iff in H. destruct H as [Hx Hs]. rewrite Hx, (IH Hs). reflexivity.
Qed.

Lemma split_append sep a b :
  has_char sep a = false ->
  split sep (a ++ String sep b)%string = a :: split sep b.
Proof.
  induction a as [|x a IH]; cbn; intros H.
  - now rewrite Ascii.eqb_refl.
  - apply orb_false_iff in H. destruct H as [Hx Ha]. rewrite Hx, (IH Ha). reflexivity.
Qed.

Lemma eqb_digit_other x c :
  digit_value c = None -> (exists v, digit_value x = Some v) -> Ascii.eqb x c = false.
Proof.
  intros Hc [v Hx]. destruct (Ascii.eqb_spec x c) as [->|]; [congruence|reflexivity].
Qed.

Lemma string_of_uint_without c d :
  digit_value c = None -> has_char c (NilEmpty.string_of_uint d) = false.
Proof.
  intros Hc. induction d; cbn [NilEmpty.string_of_uint has_char]; [reflexivity|..];
    rewrite IHd, orb_false_r; apply (eqb_digit_other _ _ Hc); eexists; reflexivity.
Qed.

Lemma str_of_int_without c n :
  0 <= n -> digit_value c = None -> has_char c (str_of_int n) = false.
Proof.
  intros Hn Hc. unfold str_of_int. destruct n as [|p|p]; [| |lia]; cbn [Z.to_int].
  - change (has_char c "0" = false). cbn [has_char]. rewrite orb_false_r.
    apply (eqb_digit_other _ _ Hc). eexists. reflexivity.
  - unfold NilZero.string_of_int.
    rewrite (NilZero_string_of_uint _ (DecimalPos.Unsigned.to_uint_nonnil p)).
    now apply string_of_uint_without.
Qed.

Lemma parse_version_of_numbers M m :
  0 <= M -> 0 <= m ->
  parse_version (str_of_int M ++ "." ++ str_of_int m)%string =
    Ok (M, m, 0, (str_of_int M ++ "." ++ str_of_int m)%string).
Proof.
  intros HM Hm.
  assert (Hdash : has_char "-" (str_of_int M ++ "." ++ str_of_int m)%string = false).
  { rewrite !has_char_append, !str_of_int_without by (assumption || reflexivity).
    reflexivity. }
  apply (parse_version_two _ (str_of_int M) (str_of_int m)).
  - unfold dot_parts, dash_prefix. rewrite (split_without _ _ Hdash). cbn [hd].
    change ("." ++ str_of_int m)%string with (String "." (str_of_int m)).
    rewrite split_append by (apply str_of_int_without; [assumption|reflexivity]).
    rewrite split_without by (apply str_of_int_without; [assumption|reflexivity]).
    reflexivity.
  - apply int_str_of_int.
  - apply int_str_of_int.
Qed.

(** Round trip: the version string of every record of the inventory
    parses back to the record's major and minor (and patch 0). *)
Theorem version_string_parses_back fs release ks k :
  detect_installed_kernels fs release = Ok ks ->
  In k ks ->
  parse_version (version k) = Ok (major k, minor k, 0, version k).
Proof.
  intros Hd Hk. destruct (detect_installed_kernels_In _ _ _ _ Hd Hk) as [_ Hprod].
  pose proof (produced_parse _ _ _ _ Hprod) as Hp.
  destruct (parse_version_nonneg _ _ _ _ _ Hp) as (HM & Hm & _).
  rewrite (parse_version_version _ _ _ _ _ Hp).
  now apply parse_version_of_numbers.
Qed.

Lemma version_string_parses_back_witness :
  detect_installed_kernels example_fs example_release = Ok example_inventory /\
  In example_kernel example_inventory /\
  parse_version (version example_kernel) =
    Ok (major example_kernel, minor example_kernel, 0, version example_kernel).
Proof.
  assert (Hd : detect_installed_kernels example_fs example_release = Ok example_inventory)
    by (vm_compute; reflexivity).
  assert (Hk : In example_kernel example_inventory) by (cbn; tauto).
  split; [exact Hd|]. split; [exact Hk|].
  exact (version_string_parses_back example_fs example_release
           example_inventory example_kernel Hd Hk).
Defined.

(** ** The kernel menu *)

Lemma kernel_menu_spec kernels choices current :
  kernel_menu kernels choices current =
    (choices ++ map (fun k => (menu_label k, ChoiceKernel k)) kernels,
     fold_left (fun c k => if is_current k then Some k else c) kernels current).
Proof.
  revert choices current.
  induction kernels as [|k kernels IH]; intros choices current; cbn.
  - now rewrite app_nil_r.
  - rewrite IH, <- app_assoc. cbn. unfold menu_label.
    destruct (is_current k); rewrite ?string_append_assoc; reflexivity.
Qed.

Lemma default_kernel_cases kernels current k :
  fold_left (fun c k => if is_current k then Some k else c) kernels current = Some k ->
  (In k kernels /\ is_current k = true) \/ current = Some k.
Proof.
  revert current. induction kernels as [|x kernels IH]; cbn; intros current H.
  - now right.
  - apply IH in H. destruct H as [[Hin Hc]|H]; [left; auto|].
    destruct (is_current x) eqn:Ex; [|now right].
    inversion H; subst. left. auto.
Qed.

Lemma default_kernel_kept kernels current :
  current <> None ->
  fold_left (fun c k => if is_current k then Some k else c) kernels current <> None.
Proof.
  revert current. induction kernels as [|y kernels IH]; cbn; intros c Hc; [exact Hc|].
  apply IH. destruct (is_current y); [discriminate|exact Hc].
Qed.

Lemma default_kernel_found kernels current :
  (exists k, In k kernels /\ is_current k = true) ->
  fold_left (fun c k => if is_current k then Some k else c) kernels current <> None.
Proof.
  revert current. induction kernels as [|x kernels IH]; cbn; intros current (k & Hin & Hc).
  - contradiction.
  - destruct Hin as [->|Hin]; [|apply IH; eauto].
    rewrite Hc. apply default_kernel_kept. discriminate.
Qed.

Lemma menu_pick kernels position :
  nth position
    (map snd (map (fun k => (menu_label k, ChoiceKernel k)) kernels ++ [all_kernels_entry]))
    ChoiceAll =
  match nth_error kernels position with
  | Some k => ChoiceKernel k
  | None => ChoiceAll
  end.
Proof.
  revert position. induction kernels as [|k kernels IH]; intros [|position]; cbn;
    try reflexivity.
  - now destruct position.
  - apply IH.
Qed.

(** The menu offers the eligible kernels in their order, one entry each
    with its label, and then the entry for all of them; the default is a
    current kernel of the list, and there is one whenever the list has a
    current kernel; a position on a kernel picks that kernel, any other
    position picks the entry for all. *)
Theorem kernel_menu_entries kernels :
  let (choices, default) := kernel_menu kernels [] None in
  map snd choices = map ChoiceKernel kernels /\
  map fst choices = map menu_label kernels /\
  (forall k, default = Some k -> In k kernels /\ is_current k = true) /\
  ((exists k, In k kernels /\ is_current k = true) -> default <> None) /\
  (forall position,
     nth position (map snd (choices ++ [all_kernels_entry])) ChoiceAll =
       match nth_error kernels position with
       | Some k => ChoiceKernel k
       | None => ChoiceAll
       end).
Proof.
  rewrite kernel_menu_spec. cbn [app].
  split; [now rewrite map_map|]. split; [now rewrite map_map|]. split.
  - intros k H. destruct (default_kernel_cases _ _ _ H) as [H'|H']; [exact H'|].
    discriminate H'.
  - split; [apply default_kernel_found|apply menu_pick].
Qed.

Lemma kernel_menu_entries_witness :
  (exists k, In k [example_kernel] /\ is_current k = true) /\
  kernel_menu [example_kernel] [] None =
    ([(" 6.17.0-1-generic (current)"%string, ChoiceKernel example_kernel)],
     Some example_kernel) /\
  Some example_kernel <> None.
Proof.
  assert (H : exists k, In k [example_kernel] /\ is_current k = true).
  { exists example_kernel. split; [now left|reflexivity]. }
  split; [exact H|]. split; [reflexivity|].
  pose proof (kernel_menu_entries [example_kernel]) as Hmenu.
  change (kernel_menu [example_kernel] [] None)
    with ([(" 6.17.0-1-generic (current)"%string, ChoiceKernel example_kernel)],
          Some example_kernel) in Hmenu.
  exact (proj1 (proj2 (proj2 (proj2 Hmenu))) H).
Defined.

(** ** What a run that writes its configuration went through *)

(** An event of a trace that is still being appended to. *)
Ltac find_in_trace :=
  repeat (apply in_or_app; first [right; left; reflexivity | left]).

Lemma run_body_details w rb sb tb p cfg :
  run_body w init [] = (rb, sb, tb) ->
  In (json_dump p cfg) tb ->
  (exists ks choices default position,
     detect_installed_kernels (fs w) (release w) = Ok ks /\
     detected_kernels sb = ks /\
     supported_with_headers ks <> [] /\
     kernel_menu (supported_with_headers ks) [] None = (choices, default) /\
     kernel_pick w = Ok position /\
     selected_kernels sb =
       match nth position (map snd (choices ++ [all_kernels_entry])) ChoiceAll with
       | ChoiceKernel k => [k]
       | ChoiceAll => supported_with_headers ks
       end /\
     In (select_kernel "Which kernel do you want to compile modules for?"
           (map fst (choices ++ [all_kernels_entry])) default) tb) /\
  (exists recommended score shown,
     (optimization <- py_get (hw_capabilities sb) "optimization" (PDict []) ;;
      py_get optimization "recommended_mode" (PStr "optimized"))%py = Ok recommended /\
     (optimization <- py_get (hw_capabilities sb) "optimization" (PDict []) ;;
      py_get optimization "optimization_score" (PInt 50))%py = Ok score /\
     py_upper recommended = Ok shown /\
     In (console_print_recommendation shown score) tb /\
     In (select_mode "Which compilation mode do you want to use?"
           ["optimized"; "vanilla"]%string
           (if py_eq_str recommended "optimized" then "optimized" else "vanilla")%string)
        tb).
Proof.
  intros H Hin. unfold run_body in H.
  do 60 (try step_run H).
  all: finish_run H.
  all: try (exfalso; case_event Hin; fail).
  all: clear Hin.
  all: split.
  all: try (exists a0, l, o, a1;
            split; [reflexivity|]; split; [reflexivity|];
            split; [intros Hnil; cbn [detected_kernels set_detected_kernels] in E3;
                   rewrite Hnil in E3; discriminate E3|];
            split; [exact E4|]; split; [reflexivity|]; split; [reflexivity|];
            find_in_trace).
  all: exists a2, a3, a4;
       split; [exact E7|]; split; [exact E8|]; split; [exact E9|];
       split; find_in_trace.
Qed.

Lemma main_writes_body w p cfg :
  In (json_dump p cfg) (trace_of (main w)) ->
  exists sb tb,
    euid w = 0 /\
    run_body w init [] = (Ok 0, sb, tb) /\
    main w = (Ok 0, sb, tb) /\
    In (json_dump p cfg) tb.
Proof.
  unfold main. destruct (euid w =? 0) eqn:Eu; cbn [negb].
  2: { intros Hin. exfalso. cbn in Hin. case_event Hin. }
  apply Z.eqb_eq in Eu. rewrite run_of_body.
  destruct (run_body w init []) as [[rb sb] tb] eqn:Hbody.
  assert (Hno : forall e, rb = Raise e -> ~ In (json_dump p cfg) tb).
  { intros e -> Hin'. destruct (run_body_export w _ _ _ _ _ Hbody Hin') as [Hr _].
    discriminate Hr. }
  destruct rb as [a|e].
  - cbn [trace_of snd]. intros Hin.
    destruct (run_body_export w _ _ _ _ _ Hbody Hin) as [Hr _].
    injection Hr as ->. exists sb, tb. auto.
  - intros Hin. exfalso.
    destruct (isinstance e KeyboardInterrupt);
      [|destruct (isinstance e Exception)]; cbn [trace_of snd] in Hin;
      try (apply in_app_or in Hin; destruct Hin as [Hin|Hin]);
      try (exact (Hno e eq_refl Hin)); case_event Hin.
Qed.

Lemma selection_cases eligible_kernels position :
  match nth position
          (map snd (map (fun k => (menu_label k, ChoiceKernel k)) eligible_kernels
                    ++ [all_kernels_entry])) ChoiceAll with
  | ChoiceKernel k => [k]
  | ChoiceAll => eligible_kernels
  end = selection eligible_kernels position.
Proof. rewrite menu_pick. unfold selection. now destruct (nth_error _ _). Qed.

(** The kernels in a written configuration are eligible ones: the kernel
    at the position the operator picked, or, for a position past the
    kernels (the entry for all), every eligible kernel in inventory
    order.  The list is never empty and never holds a kernel that is
    unsupported or has no headers. *)
Theorem exported_kernels_are_eligible w p cfg :
  In (json_dump p cfg) (trace_of (main w)) ->
  exists ks position,
    detect_installed_kernels (fs w) (release w) = Ok ks /\
    kernel_pick w = Ok position /\
    config_get "selected_kernels" cfg =
      Some (PList (map kernel_config
                     (selection (supported_with_headers ks) position))) /\
    selection (supported_with_headers ks) position <> [] /\
    (forall k, In k (selection (supported_with_headers ks) position) ->
               In k ks /\ supported k = true /\ headers_installed k = true) /\
    ((List.length (supported_with_headers ks) <= position)%nat ->
     selection (supported_with_headers ks) position = supported_with_headers ks).
Proof.
  intros Hin. destruct (main_writes_body w p cfg Hin) as (sb & tb & _ & Hbody & _ & Hin').
  destruct (run_body_export w _ _ _ _ _ Hbody Hin') as (_ & _ & -> & _).
  destruct (run_body_details w _ _ _ _ _ Hbody Hin')
    as ((ks & choices & default & position & Hd & _ & Hne & Hmenu & Hpick & Hsel & _) & _).
  exists ks, position. split; [exact Hd|]. split; [exact Hpick|].
  rewrite kernel_menu_spec in Hmenu. injection Hmenu as <- _. cbn [app] in Hsel.
  rewrite selection_cases in Hsel.
  split; [cbn; now rewrite Hsel|].
  assert (Hall : forall k, In k (supported_with_headers ks) ->
                   In k ks /\ supported k = true /\ headers_installed k = true).
  { intros k Hk. rewrite supported_with_headers_filter in Hk.
    apply filter_In in Hk. unfold eligible in Hk. rewrite andb_true_iff in Hk. tauto. }
  unfold selection.
  destruct (nth_error (supported_with_headers ks) position) as [k|] eqn:En.
  - split; [discriminate|]. split.
    + intros k' [<-|[]]. apply Hall. exact (nth_error_In _ _ En).
    + intros Hlen. apply nth_error_None in Hlen. congruence.
  - split; [exact Hne|]. split; [exact Hall|reflexivity].
Qed.

Lemma exported_kernels_are_eligible_witness :
  In (json_dump config_file example_config) (trace_of (main example_world)) /\
  config_get "selected_kernels" example_config =
    Some (PList (map kernel_config [example_kernel])) /\
  exists ks position,
    detect_installed_kernels (fs example_world) (release example_world) = Ok ks /\
    kernel_pick example_world = Ok position /\
    config_get "selected_kernels" example_config =
      Some (PList (map kernel_config
                     (selection (supported_with_headers ks) position))) /\
    selection (supported_with_headers ks) position <> [] /\
    (forall k, In k (selection (supported_with_headers ks) position) ->
               In k ks /\ supported k = true /\ headers_installed k = true) /\
    ((List.length (supported_with_headers ks) <= position)%nat ->
     selection (supported_with_headers ks) position = supported_with_headers ks).
Proof.
  assert (Hin : In (json_dump config_file example_config)
                  (trace_of (main example_world))) by find_event.
  split; [exact Hin|]. split; [reflexivity|].
  exact (exported_kernels_are_eligible example_world config_file example_config Hin).
Defined.

(** In a written configuration [hw_capabilities] is a dict; its
    ["optimization"] entry, when there is one, is a dict, and the
    ["recommended_mode"] in that, when there is one, is a string: with
    any other shape the lookups of step 3 raise and nothing is written. *)
Theorem exported_capabilities_shape w p cfg :
  In (json_dump p cfg) (trace_of (main w)) ->
  exists items,
    config_get "hw_capabilities" cfg = Some (PDict items) /\
    forall optimization, lookup "optimization" items = Some optimization ->
      exists entries, optimization = PDict entries /\
        forall recommended, lookup "recommended_mode" entries = Some recommended ->
          exists text, recommended = PStr text.
Proof.
  intros Hin. destruct (main_writes_body w p cfg Hin) as (sb & tb & _ & Hbody & _ & Hin').
  destruct (run_body_export w _ _ _ _ _ Hbody Hin') as (_ & _ & -> & _).
  destruct (run_body_details w _ _ _ _ _ Hbody Hin')
    as (_ & (recommended & score & shown & Hrec & _ & Hup & _)).
  cbn [config_get run_config lookup String.eqb Ascii.eqb Bool.eqb].
  destruct (hw_capabilities sb) as [| | | | | |items]; try discriminate Hrec.
  exists items. split; [reflexivity|].
  intros optimization Hopt. cbn [py_get bind] in Hrec. rewrite Hopt in Hrec.
  destruct optimization as [| | | | | |entries]; try discriminate Hrec.
  exists entries. split; [reflexivity|].
  intros r Hr. cbn [py_get] in Hrec. rewrite Hr in Hrec. injection Hrec as <-.
  destruct r; try discriminate Hup. eauto.
Qed.

Lemma exported_capabilities_shape_witness :
  In (json_dump config_file example_config) (trace_of (main example_world)) /\
  exists items,
    config_get "hw_capabilities" example_config = Some (PDict items) /\
    forall optimization, lookup "optimization" items = Some optimization ->
      exists entries, optimization = PDict entries /\
        forall recommended, lookup "recommended_mode" entries = Some recommended ->
          exists text, recommended = PStr text.
Proof.
  assert (Hin : In (json_dump config_file example_config)
                  (trace_of (main example_world))) by find_event.
  split; [exact Hin|].
  exact (exported_capabilities_shape example_world config_file example_config Hin).
Defined.

(** When a configuration is written with no hardware capabilities, the
    wizard has recommended OPTIMIZED with score 50 and offered
    ["optimized"] as the default mode. *)
Theorem recommendation_without_capabilities w p cfg :
  In (json_dump p cfg) (trace_of (main w)) ->
  config_get "hw_capabilities" cfg = Some (PDict []) ->
  In (console_print_recommendation "OPTIMIZED" (PInt 50)) (trace_of (main w)) /\
  In (select_mode "Which compilation mode do you want to use?"
        ["optimized"; "vanilla"]%string "optimized") (trace_of (main w)).
Proof.
  intros Hin Hcaps.
  destruct (main_writes_body w p cfg Hin) as (sb & tb & _ & Hbody & Hmain & Hin').
  destruct (run_body_export w _ _ _ _ _ Hbody Hin') as (_ & _ & -> & _).
  destruct (run_body_details w _ _ _ _ _ Hbody Hin')
    as (_ & (recommended & score & shown & Hrec & Hscore & Hup & Hshown & Hmenu)).
  rewrite Hmain. cbn [trace_of snd].
  cbn [config_get run_config lookup String.eqb Ascii.eqb Bool.eqb] in Hcaps.
  injection Hcaps as Hcaps. rewrite Hcaps in Hrec, Hscore.
  cbn in Hrec, Hscore. injection Hrec as <-. injection Hscore as <-.
  cbn in Hup. injection Hup as <-. split; [exact Hshown|exact Hmenu].
Qed.

Lemma recommendation_without_capabilities_witness :
  exists cfg,
    In (json_dump config_file cfg) (trace_of (main timeout_world)) /\
    config_get "hw_capabilities" cfg = Some (PDict []) /\
    In (console_print_recommendation "OPTIMIZED" (PInt 50))
       (trace_of (main timeout_world)) /\
    In (select_mode "Which compilation mode do you want to use?"
          ["optimized"; "vanilla"]%string "optimized") (trace_of (main timeout_world)).
Proof.
  eexists. split; [find_event|]. split; [reflexivity|].
  refine (recommendation_without_capabilities timeout_world config_file _ _ _).
  - find_event.
  - reflexivity.
Defined.

(** ** Return values *)

Lemma run_body_returns w rb sb tb :
  run_body w init [] = (rb, sb, tb) ->
  (rb = Ok 0 /\ config_write w = Ok tt /\
   In (json_dump config_file (run_config w sb)) tb) \/
  ((rb = Ok 1 \/ exists e, rb = Raise e) /\ forall p cfg, ~ In (json_dump p cfg) tb).
Proof.
  intros H. unfold run_body in H.
  do 60 (try step_run H).
  all: finish_run H.
  all: try (right; split; [first [now left | right; eexists; reflexivity]
                          |intros p cfg Hin; case_event Hin]; fail).
  all: left; split; [reflexivity|split; [|find_in_trace]].
  all: match goal with
       | |- Ok ?u = Ok tt => destruct u; reflexivity
       end.
Qed.

(** What [run] makes of the outcome of its body. *)
Lemma main_of_body w :
  euid w = 0 ->
  forall rb sb tb, run_body w init [] = (rb, sb, tb) ->
  (fst (fst (main w)) = Ok 0 -> rb = Ok 0) /\
  (forall p cfg, In (json_dump p cfg) (trace_of (main w)) -> In (json_dump p cfg) tb).
Proof.
  intros Hu rb sb tb Hbody. unfold main. rewrite Hu. cbn [Z.eqb negb].
  rewrite run_of_body, Hbody.
  destruct rb as [n|e]; [split; [intros H; exact H|intros p cfg H; exact H]|].
  destruct (isinstance e KeyboardInterrupt);
    [|destruct (isinstance e Exception)]; cbn [fst snd trace_of];
    (split; [discriminate|]); intros p cfg Hin; try exact Hin;
    apply in_app_or in Hin; destruct Hin as [Hin|Hin];
    first [exact Hin | case_event Hin].
Qed.

(** [main] returns 0 only after the configuration has been written at
    the fixed path; when the write raises, [main] does not return 0 and
    no configuration counts as written. *)
Theorem zero_only_after_write w :
  (fst (fst (main w)) = Ok 0 ->
   config_write w = Ok tt /\
   exists cfg, In (json_dump config_file cfg) (trace_of (main w))) /\
  (forall e, config_write w = Raise e ->
   fst (fst (main w)) <> Ok 0 /\
   forall p cfg, ~ In (json_dump p cfg) (trace_of (main w))).
Proof.
  assert (Hroot : euid w <> 0 ->
            fst (fst (main w)) <> Ok 0 /\
            forall p cfg, ~ In (json_dump p cfg) (trace_of (main w))).
  { intros Hu. unfold main. apply Z.eqb_neq in Hu. rewrite Hu. cbn.
    split; [discriminate|]. intros p cfg Hin. case_event Hin. }
  destruct (Z.eq_dec (euid w) 0) as [Hu|Hu].
  2: { destruct (Hroot Hu) as [Hno Hquiet]. split; [intros H; contradiction|].
       intros e _. auto. }
  destruct (run_body w init []) as [[rb sb] tb] eqn:Hbody.
  destruct (main_of_body w Hu rb sb tb Hbody) as [Hzero Hwritten].
  assert (Hmain : main w = run w init []) by (unfold main; now rewrite Hu).
  destruct (run_body_returns w rb sb tb Hbody) as [(-> & Hw & Hin)|[Hrb Hno]].
  - split.
    + intros _. split; [exact Hw|]. exists (run_config w sb).
      rewrite Hmain, run_of_body, Hbody. exact Hin.
    + intros e He. rewrite He in Hw. discriminate Hw.
  - assert (Hnot : fst (fst (main w)) <> Ok 0).
    { intros H. apply Hzero in H. subst rb.
      destruct Hrb as [H|[e H]]; discriminate H. }
    split; [intros H; contradiction|]. intros e _. split; [exact Hnot|].
    intros p cfg Hin. exact (Hno _ _ (Hwritten _ _ Hin)).
Qed.

Lemma zero_only_after_write_witness :
  (fst (fst (main example_world)) = Ok 0 /\
   config_write example_world = Ok tt /\
   exists cfg, In (json_dump config_file cfg) (trace_of (main example_world))) /\
  (config_write unwritable_world =
     Raise (mkExc PermissionError
              "[Errno 13] Permission denied: '/tmp/vmware_wizard_config.json'") /\
   fst (fst (main unwritable_world)) <> Ok 0 /\
   forall p cfg, ~ In (json_dump p cfg) (trace_of (main unwritable_world))).
Proof.
  assert (H0 : fst (fst (main example_world)) = Ok 0) by (vm_compute; reflexivity).
  split.
  - split; [exact H0|]. exact (proj1 (zero_only_after_write example_world) H0).
  - split; [reflexivity|].
    exact (proj2 (zero_only_after_write unwritable_world) _ eq_refl).
Defined.

(** A configuration is written only by a run as root in which the
    operator said yes to both confirmations; it goes to the fixed path. *)
Theorem written_only_when_confirmed w p cfg :
  In (json_dump p cfg) (trace_of (main w)) ->
  euid w = 0 /\ confirm_start w = Ok true /\ confirm_final w = Ok true /\
  p = config_file.
Proof.
  intros Hin. destruct (main_writes_body w p cfg Hin) as (sb & tb & Hu & Hbody & Hmain & Hin').
  destruct (run_body_export w _ _ _ _ _ Hbody Hin') as (_ & -> & _ & Hs & Hf & _).
  auto.
Qed.

Lemma written_only_when_confirmed_witness :
  In (json_dump config_file example_config) (trace_of (main example_world)) /\
  euid example_world = 0 /\ confirm_start example_world = Ok true /\
  confirm_final example_world = Ok true /\
  config_file = config_file.
Proof.
  assert (Hin : In (json_dump config_file example_config)
                  (trace_of (main example_world))) by find_event.
  split; [exact Hin|].
  exact (written_only_when_confirmed example_world config_file example_config Hin).
Defined.

(** ** A write that fails *)

Lemma exception_not_interrupt e :
  isinstance e Exception = true -> isinstance e KeyboardInterrupt = false.
Proof. destruct e as [[] msg]; cbn; intros H; first [reflexivity | discriminate H]. Qed.

Lemma final_confirmation_reached w :
  In (confirm "Proceed with installation?" true) (trace_of (main w)) ->
  euid w = 0 /\
  exists rb sb tb,
    run_body w init [] = (rb, sb, tb) /\
    In (confirm "Proceed with installation?" true) tb.
Proof.
  unfold main. destruct (euid w =? 0) eqn:Eu; cbn [negb].
  2: { intros Hin. exfalso. cbn in Hin. case_event Hin. }
  apply Z.eqb_eq in Eu. rewrite run_of_body.
  destruct (run_body w init []) as [[rb sb] tb] eqn:Hbody.
  intros Hstep. split; [exact Eu|]. exists rb, sb, tb. split; [reflexivity|].
  destruct rb as [a|e]; [exact Hstep|].
  destruct (isinstance e KeyboardInterrupt);
    [|destruct (isinstance e Exception)]; cbn [trace_of snd] in Hstep;
    try exact Hstep;
    apply in_app_or in Hstep; destruct Hstep as [Hstep|Hstep];
    try exact Hstep; case_event Hstep.
Qed.

Lemma run_body_write_raises w rb sb tb e :
  run_body w init [] = (rb, sb, tb) ->
  In (confirm "Proceed with installation?" true) tb ->
  confirm_final w = Ok true ->
  config_write w = Raise e ->
  rb = Raise e /\ forall p cfg, ~ In (json_dump p cfg) tb.
Proof.
  intros H Hin Hf Hw. unfold run_body in H.
  do 60 (try step_run H).
  all: finish_run H.
  all: try discriminate Hf; try discriminate Hw.
  all: try (exfalso; case_event Hin; fail).
  all: try (injection Hf as ->; discriminate).
  all: injection Hw as ->.
  all: split; [reflexivity|intros p cfg Hp; case_event Hp].
Qed.

(** When the operator has said yes to the final confirmation and the
    configuration cannot be written, the error is reported with its
    traceback, [main] returns 1 and no configuration counts as written. *)
Theorem failed_write_reported w e :
  In (confirm "Proceed with installation?" true) (trace_of (main w)) ->
  confirm_final w = Ok true ->
  config_write w = Raise e ->
  isinstance e Exception = true ->
  fst (fst (main w)) = Ok 1 /\
  (exists before,
     trace_of (main w) =
       before ++ [console_print;
                  show_error ("An error occurred: " ++ exc_str e)%string;
                  print_exc e]) /\
  forall p cfg, ~ In (json_dump p cfg) (trace_of (main w)).
Proof.
  intros Hin Hf Hw He.
  destruct (final_confirmation_reached w Hin) as (Hu & rb & sb & tb & Hbody & Hin').
  destruct (run_body_write_raises w rb sb tb e Hbody Hin' Hf Hw) as [-> Hno].
  assert (Hmain : main w = run w init []) by (unfold main; now rewrite Hu).
  rewrite Hmain, run_of_body, Hbody, (exception_not_interrupt e He), He.
  cbn [fst snd trace_of]. split; [reflexivity|]. split; [eexists; reflexivity|].
  intros p cfg Hp. apply in_app_or in Hp. destruct Hp as [Hp|Hp];
    [exact (Hno _ _ Hp)|case_event Hp].
Qed.

Lemma failed_write_reported_witness :
  In (confirm "Proceed with installation?" true) (trace_of (main unwritable_world)) /\
  confirm_final unwritable_world = Ok true /\
  fst (fst (main unwritable_world)) = Ok 1 /\
  (exists before,
     trace_of (main unwritable_world) =
       before ++ [console_print;
                  show_error "An error occurred: [Errno 13] Permission denied: '/tmp/vmware_wizard_config.json'";
                  print_exc (mkExc PermissionError
                               "[Errno 13] Permission denied: '/tmp/vmware_wizard_config.json'")]) /\
  forall p cfg, ~ In (json_dump p cfg) (trace_of (main unwritable_world)).
Proof.
  assert (Hin : In (confirm "Proceed with installation?" true)
                  (trace_of (main unwritable_world))) by find_event.
  split; [exact Hin|]. split; [reflexivity|].
  exact (failed_write_reported unwritable_world _ Hin eq_refl eq_refl eq_refl).
Defined.

(** ** Names outside ASCII *)


(** ** Cancellation *)

(** An interrupt while the memory checker runs is not swallowed by the
    pre-check: the run stops there, reports the cancellation and returns
    1, with the wizard untouched and nothing else done. *)
Theorem interrupt_in_precheck_cancels w e :
  euid w = 0 ->
  path_exists (fs w) (memory_checker w) = true ->
  memory_fix w = Raise e ->
  exc_type e = KeyboardInterrupt ->
  main w =
    (Ok 1, init,
     [subprocess_run ["sudo"; "python3"; memory_checker w];
      console_print;
      show_warning "Installation cancelled by user (Ctrl+C)"]).
Proof.
  intros Hu Hs Hm Hk. unfold main. rewrite Hu. cbn [Z.eqb negb].
  rewrite run_of_body. unfold run_body.
  assert (Hi : isinstance e Exception = false) by (unfold isinstance; now rewrite Hk).
  assert (Hi' : isinstance e KeyboardInterrupt = true)
    by (unfold isinstance; now rewrite Hk).
  pose proof (memory_check_raise w init [] e Hs Hm) as Hcheck. rewrite Hi in Hcheck.
  rewrite (bind_result _ _ _ _ _ _ _ Hcheck), Hi'. reflexivity.
Qed.

Lemma interrupt_in_precheck_cancels_witness :
  euid interrupted_world = 0 /\
  path_exists (fs interrupted_world) (memory_checker interrupted_world) = true /\
  memory_fix interrupted_world = Raise (mkExc KeyboardInterrupt "") /\
  main interrupted_world =
    (Ok 1, init,
     [subprocess_run ["sudo"; "python3"; memory_checker interrupted_world];
      console_print;
      show_warning "Installation cancelled by user (Ctrl+C)"]).
Proof.
  split; [reflexivity|]. split; [reflexivity|]. split; [reflexivity|].
  exact (interrupt_in_precheck_cancels interrupted_world (mkExc KeyboardInterrupt "")
           eq_refl eq_refl eq_refl eq_refl).
Defined.

(** When the operator says no to the first confirmation, the run ends
    right after the prompt: it returns 1, the wizard is untouched, and
    the trace is the pre-check's subprocess events, the banner, the
    steps, the prompt and the cancellation warning. *)
Theorem declined_start_cancels w :
  euid w = 0 ->
  confirm_start w = Ok false ->
  (forall e, memory_fix w = Raise e -> isinstance e Exception = true) ->
  exists precheck,
    (forall ev, In ev precheck -> process_event ev) /\
    main w =
      (Ok 1, init,
       precheck ++
       [show_banner "VMware Module Installation Wizard"
          "Automated Kernel Module Compilation for Linux 6.16/6.17/6.18";
        show_welcome_steps welcome_steps;
        confirm "Ready to start the installation?" true;
        show_warning "Installation cancelled by user"]).
Proof.
  intros Hu Hc Hm. unfold main. rewrite Hu. cbn [Z.eqb negb].
  rewrite run_of_body.
  destruct (run_body w init []) as [[rb sb] tb] eqn:H. unfold run_body in H.
  step_run H.
  - do 3 step_run H. rewrite bind_lift, Hc in H. cbn [negb] in H.
    step_run H. finish_run H. exists added. split; [exact Hmemory|].
    cbn [app]. rewrite <- !app_assoc. reflexivity.
  - exfalso. destruct (path_exists (fs w) (memory_checker w)) eqn:Hs.
    + destruct (memory_fix w) as [code|e'] eqn:Em.
      * rewrite (memory_check_exit w init [] code Hs Em) in Ememory.
        apply triple_eq in Ememory. destruct Ememory as (Hr' & _). discriminate Hr'.
      * rewrite (memory_check_raise w init [] e' Hs Em), (Hm e' eq_refl) in Ememory.
        apply triple_eq in Ememory. destruct Ememory as (Hr' & _). discriminate Hr'.
    + rewrite (memory_check_no_script w init [] Hs) in Ememory.
      apply triple_eq in Ememory. destruct Ememory as (Hr' & _). discriminate Hr'.
Qed.

Lemma declined_start_cancels_witness :
  euid declined_world = 0 /\
  confirm_start declined_world = Ok false /\
  (forall e, memory_fix declined_world = Raise e -> isinstance e Exception = true) /\
  exists precheck,
    (forall ev, In ev precheck -> process_event ev) /\
    main declined_world =
      (Ok 1, init,
       precheck ++
       [show_banner "VMware Module Installation Wizard"
          "Automated Kernel Module Compilation for Linux 6.16/6.17/6.18";
        show_welcome_steps welcome_steps;
        confirm "Ready to start the installation?" true;
        show_warning "Installation cancelled by user"]).
Proof.
  assert (Hm : forall e, memory_fix declined_world = Raise e ->
                         isinstance e Exception = true).
  { intros e He. vm_compute in He. discriminate He. }
  split; [reflexivity|]. split; [reflexivity|]. split; [exact Hm|].
  exact (declined_start_cancels declined_world eq_refl eq_refl Hm).
Defined.

(** ** The capability files *)

(** After a probe that exits, the first capability file decides alone
    whenever it exists: a first file that cannot be loaded leaves the
    capabilities empty even when the file named after the process is
    fine.  Only when the first file is missing is the second one read. *)
Theorem first_capability_file_decides w self tr code :
  path_exists (fs w) (detect_script w) = true ->
  probe w = Ok code ->
  (forall loaded,
     capabilities_file w "/tmp/vmware_hw_capabilities.json" = Some loaded ->
     (forall caps, loaded = Ok caps ->
        run_hardware_detection w self tr =
          (Ok tt, set_hw_capabilities caps self, tr ++ [probe_started w])) /\
     (forall e, loaded = Raise e -> isinstance e Exception = true ->
        run_hardware_detection w self tr =
          (Ok tt, set_hw_capabilities (PDict []) self,
           tr ++ [probe_started w; probe_warning e]))) /\
  (capabilities_file w "/tmp/vmware_hw_capabilities.json" = None ->
   (forall caps,
      capabilities_file w
        ("/tmp/vmware_hw_capabilities_" ++ str_of_int (pid w) ++ ".json")%string
        = Some (Ok caps) ->
      run_hardware_detection w self tr =
        (Ok tt, set_hw_capabilities caps self, tr ++ [probe_started w])) /\
   (capabilities_file w
      ("/tmp/vmware_hw_capabilities_" ++ str_of_int (pid w) ++ ".json")%string
      = None ->
    run_hardware_detection w self tr = (Ok tt, self, tr ++ [probe_started w]))).
Proof.
  intros Hs Hp. rewrite (hardware_probe_exits w self tr code Hs Hp).
  unfold capabilities_paths. cbn [first_existing]. split.
  - intros loaded ->. split.
    + intros caps ->. reflexivity.
    + intros e -> ->. reflexivity.
  - intros ->. split.
    + intros caps ->. reflexivity.
    + intros ->. reflexivity.
Qed.

Lemma first_capability_file_decides_witness :
  path_exists (fs malformed_first_world) (detect_script malformed_first_world) = true /\
  probe malformed_first_world = Ok 0 /\
  capabilities_file malformed_first_world "/tmp/vmware_hw_capabilities.json" =
    Some (Raise (mkExc JSONDecodeError "Expecting value: line 1 column 1 (char 0)")) /\
  capabilities_file malformed_first_world "/tmp/vmware_hw_capabilities_4242.json" =
    Some (Ok example_caps) /\
  run_hardware_detection malformed_first_world init [] =
    (Ok tt, set_hw_capabilities (PDict []) init,
     [] ++ [probe_started malformed_first_world;
            probe_warning
              (mkExc JSONDecodeError "Expecting value: line 1 column 1 (char 0)")]).
Proof.
  split; [reflexivity|]. split; [reflexivity|]. split; [reflexivity|].
  split; [reflexivity|].
  exact (proj2 (proj1 (first_capability_file_decides malformed_first_world init [] 0
                         eq_refl eq_refl) _ eq_refl) _ eq_refl eq_refl).
Defined.

(** ** What the two helper steps leave alone *)

(** The memory pre-check never changes the wizard, and hardware detection
    changes nothing but [hw_capabilities]; both only extend the trace,
    and never with a file write. *)
Theorem helper_steps_frame w self tr :
  (exists r added,
     check_and_fix_memory_saturation w self tr = (r, self, tr ++ added) /\
     forall p cfg, ~ In (json_dump p cfg) added) /\
  (exists r self' added,
     run_hardware_detection w self tr = (r, self', tr ++ added) /\
     detected_kernels self' = detected_kernels self /\
     selected_kernels self' = selected_kernels self /\
     optimization_mode self' = optimization_mode self /\
     forall p cfg, ~ In (json_dump p cfg) added).
Proof.
  split.
  - destruct (memory_check_frame w self tr) as (r & added & E & Hadded & _).
    exists r, added. split; [exact E|]. intros p cfg Hin. exact (Hadded _ Hin).
  - destruct (hardware_frame w self tr) as (r & caps & added & E & Hadded & _).
    exists r, (set_hw_capabilities caps self), added. split; [exact E|].
    split; [reflexivity|]. split; [reflexivity|]. split; [reflexivity|].
    intros p cfg Hin. exact (Hadded _ Hin).
Qed.

(** ** An unusable modules root *)

Lemma detect_installed_kernels_not_directory fs release :
  stat fs modules_dir = Some RegularFile ->
  detect_installed_kernels fs release =
    Raise (mkExc NotADirectoryError "[Errno 20] Not a directory: '/lib/modules'").
Proof.
  intros H. unfold detect_installed_kernels, path_exists, iterdir. now rewrite H.
Qed.

Lemma step_1_reached w :
  In (show_step 1 4 "Kernel Detection & Selection") (trace_of (main w)) ->
  euid w = 0 /\
  exists rb sb tb,
    run_body w init [] = (rb, sb, tb) /\
    In (show_step 1 4 "Kernel Detection & Selection") tb.
Proof.
  unfold main. destruct (euid w =? 0) eqn:Eu; cbn [negb].
  2: { intros Hin. exfalso. cbn in Hin. case_event Hin. }
  apply Z.eqb_eq in Eu. rewrite run_of_body.
  destruct (run_body w init []) as [[rb sb] tb] eqn:Hbody.
  intros Hstep. split; [exact Eu|]. exists rb, sb, tb. split; [reflexivity|].
  destruct rb as [a|e]; [exact Hstep|].
  destruct (isinstance e KeyboardInterrupt);
    [|destruct (isinstance e Exception)]; cbn [trace_of snd] in Hstep;
    try exact Hstep;
    apply in_app_or in Hstep; destruct Hstep as [Hstep|Hstep];
    try exact Hstep; case_event Hstep.
Qed.

Lemma run_body_detection_raises w rb sb tb e :
  run_body w init [] = (rb, sb, tb) ->
  In (show_step 1 4 "Kernel Detection & Selection") tb ->
  detect_installed_kernels (fs w) (release w) = Raise e ->
  rb = Raise e /\ sb = init /\
  (forall ev, In ev tb ->
     process_event ev \/
     In ev [show_banner "VMware Module Installation Wizard"
              "Automated Kernel Module Compilation for Linux 6.16/6.17/6.18";
            show_welcome_steps welcome_steps;
            confirm "Ready to start the installation?" true;
            show_step 1 4 "Kernel Detection & Selection"]).
Proof.
  intros Hbody Hstep Hd. unfold run_body in Hbody.
  do 8 (try step_run Hbody).
  all: try (finish_run Hbody; exfalso; case_event Hstep; fail).
  all: first [discriminate Hd | injection Hd as ->].
  finish_run Hbody. split; [reflexivity|]. split; [reflexivity|].
  intros ev Hev. cbn [app] in Hev. rewrite <- !app_assoc in Hev. cbn [app] in Hev.
  apply in_app_or in Hev. destruct Hev as [Hev|Hev]; [left; exact (Hmemory _ Hev)|].
  right. exact Hev.
Qed.

(** When the flow is at step 1 and [/lib/modules] does not exist, the
    run ends on "No kernels detected!" and returns 1; when it is there
    but is not a directory, listing it raises, the run reports the error
    with its traceback and returns 1, without ever showing
    "No kernels detected!".  Nothing is written in either case. *)
Theorem unusable_modules_root w :
  In (show_step 1 4 "Kernel Detection & Selection") (trace_of (main w)) ->
  (stat (fs w) modules_dir = None ->
   fst (fst (main w)) = Ok 1 /\
   (exists before, trace_of (main w) = before ++ [show_error no_kernels_message]) /\
   forall p cfg, ~ In (json_dump p cfg) (trace_of (main w))) /\
  (stat (fs w) modules_dir = Some RegularFile ->
   fst (fst (main w)) = Ok 1 /\
   (exists before e,
      exc_type e = NotADirectoryError /\
      trace_of (main w) =
        before ++ [console_print;
                   show_error ("An error occurred: " ++ exc_str e)%string;
                   print_exc e]) /\
   ~ In (show_error no_kernels_message) (trace_of (main w)) /\
   forall p cfg, ~ In (json_dump p cfg) (trace_of (main w))).
Proof.
  intros Hstep. destruct (step_1_reached w Hstep) as (Hu & rb & sb & tb & Hbody & Hstep').
  assert (Hmain : main w = run w init []).
  { unfold main. now rewrite Hu. }
  rewrite Hmain, run_of_body, Hbody. split.
  - intros Hs.
    pose proof (detect_installed_kernels_missing (fs w) (release w) Hs) as Hd.
    destruct (proj2 (run_body_step_1 w rb sb tb [] Hbody Hstep' Hd) eq_refl)
      as (-> & Hend & _ & Hno).
    cbn [fst snd trace_of]. auto.
  - intros Hs.
    pose proof (detect_installed_kernels_not_directory (fs w) (release w) Hs) as Hd.
    destruct (run_body_detection_raises w rb sb tb _ Hbody Hstep' Hd)
      as (-> & -> & Hevents).
    cbn [fst snd trace_of isinstance issubclass exc_type mro existsb exc_class_eqb orb].
    split; [reflexivity|]. split; [do 2 eexists; split; [|reflexivity]; reflexivity|].
    assert (Hquiet : forall ev, In ev tb ->
              ev <> show_error no_kernels_message /\ forall p cfg, ev <> json_dump p cfg).
    { intros ev Hev. destruct (Hevents ev Hev) as [Hp|Hin].
      - destruct ev; try contradiction; split; intros; discriminate.
      - split; [intros ->|intros p cfg ->]; case_event Hin. }
    split; [intros Hin|intros p cfg Hin];
      apply in_app_or in Hin; destruct Hin as [Hin|Hin];
      try (destruct (Hquiet _ Hin) as [H1 H2];
           first [exact (H1 eq_refl) | exact (H2 _ _ eq_refl)]);
      case_event Hin.
Qed.

Lemma unusable_modules_root_witness :
  In (show_step 1 4 "Kernel Detection & Selection") (trace_of (main broken_root_world)) /\
  stat (fs broken_root_world) modules_dir = Some RegularFile /\
  fst (fst (main broken_root_world)) = Ok 1 /\
  (exists before e,
     exc_type e = NotADirectoryError /\
     trace_of (main broken_root_world) =
       before ++ [console_print;
                  show_error ("An error occurred: " ++ exc_str e)%string;
                  print_exc e]) /\
  ~ In (show_error no_kernels_message) (trace_of (main broken_root_world)) /\
  forall p cfg, ~ In (json_dump p cfg) (trace_of (main broken_root_world)).
Proof.
  assert (Hstep : In (show_step 1 4 "Kernel Detection & Selection")
                    (trace_of (main broken_root_world))) by find_event.
  split; [exact Hstep|]. split; [reflexivity|].
  exact (proj2 (unusable_modules_root broken_root_world Hstep) eq_refl).
Defined.

(** ** Names with more than three numbers *)

(** Only the first three dot-separated parts of a name are read: a
    directory whose name has further parts gets its record from the
    first three, whatever the further parts are. *)
Theorem further_parts_ignored fs release name a b c rest M m p :
  stat fs modules_dir = Some Directory ->
  In name (listdir fs modules_dir) ->
  path_is_dir fs (joinpath modules_dir name) = true ->
  dot_parts name = a :: b :: c :: rest ->
  int a = Ok M -> int b = Ok m -> int c = Ok p ->
  exists ks k,
    detect_installed_kernels fs release = Ok ks /\ In k ks /\
    full_version k = name /\ major k = M /\ minor k = m /\ patch k = p.
Proof.
  intros Hs Hin Hdir Hparts Ha Hb Hc.
  pose proof (parse_version_three name a b c rest M m p Hparts Ha Hb Hc) as Hp.
  destruct (detect_installed_kernels_entry fs release name _ _ _ _ Hs Hin Hdir Hp)
    as (ks & k & Hd & Hk & Hn).
  exists ks, k. split; [exact Hd|]. split; [exact Hk|]. split; [exact Hn|].
  destruct (detect_installed_kernels_In _ _ _ _ Hd Hk) as [_ Hprod].
  rewrite Hn in Hprod. pose proof (produced_parse _ _ _ _ Hprod) as Hq.
  rewrite Hp in Hq. inversion Hq. auto.
Qed.

Lemma further_parts_ignored_witness :
  stat four_part_fs modules_dir = Some Directory /\
  In "6.17.0.custom-1"%string (listdir four_part_fs modules_dir) /\
  path_is_dir four_part_fs (joinpath modules_dir "6.17.0.custom-1") = true /\
  dot_parts "6.17.0.custom-1" = ["6"; "17"; "0"; "custom"]%string /\
  exists ks k,
    detect_installed_kernels four_part_fs example_release = Ok ks /\ In k ks /\
    full_version k = "6.17.0.custom-1"%string /\
    major k = 6 /\ minor k = 17 /\ patch k = 0.
Proof.
  split; [reflexivity|]. split; [cbn; tauto|]. split; [reflexivity|].
  split; [reflexivity|].
  refine (further_parts_ignored four_part_fs example_release "6.17.0.custom-1"
            "6" "17" "0" ["custom"%string] 6 17 0 eq_refl _ eq_refl eq_refl
            eq_refl eq_refl eq_refl).
  cbn. tauto.
Defined.
